(** * The [services] example command of space-cli

    A shallow embedding of [examples/commands/services.py] and the
    properties of the report it prints.

    The command reads one JSON document from its standard input and prints
    a summary of the configured services.  The document is modelled as the
    value [json.load] hands back; the standard output as the list of the
    lines printed so far; failure as a Python exception carried next to
    that list, so that what had been printed before the failure stays
    visible. *)

From Stdlib Require Import List String Ascii ZArith NArith Bool Lia.
From Stdlib Require Import Permutation Sorted Orders OrdersEx Mergesort RelationClasses.
From Stdlib Require Import DecimalString DecimalZ SpecFloat.
Import ListNotations.
Local Open Scope list_scope.
Local Open Scope string_scope.
Set Warnings "-register-all".

(** ** Values decoded from JSON

    [json.load] yields [None], [bool], [int], [float], [str], [list] and
    [dict].  A [str] is kept as its UTF-8 bytes: concatenation is the same
    on bytes and on code points, and the byte-wise lexicographic order of
    UTF-8 is the code-point order Python compares strings with.  (A
    string with a lone surrogate has no UTF-8 form: it, and the encoding
    error [print] may raise on it, are outside the model.)  A [dict] is an
    association list in insertion order, which is the order Python
    iterates and prints it in; its keys are pairwise distinct ([wf]). *)

Inductive value : Type :=
| VNull
| VBool (b : bool)
| VInt (z : Z)
| VFloat (f : spec_float)
| VStr (s : string)
| VList (l : list value)
| VDict (d : list (string * value)).

Definition dict : Type := list (string * value).

Fixpoint lookup (k : string) (d : dict) : option value :=
  match d with
  | [] => None
  | (k', v) :: d' => if k' =? k then Some v else lookup k d'
  end.

Definition keys (d : dict) : list string := map fst d.

Fixpoint nodupb (l : list string) : bool :=
  match l with
  | [] => true
  | x :: l' => negb (existsb (String.eqb x) l') && nodupb l'
  end.

(** The invariant of every value the decoder builds: no [dict], at any
    depth, holds a key twice. *)
Fixpoint wf (v : value) : bool :=
  match v with
  | VList l => forallb wf l
  | VDict d => nodupb (keys d) && forallb (fun kv => wf (snd kv)) d
  | _ => true
  end.

(** ** Exceptions, standard output and the command monad *)

Inductive exn : Type :=
| JSONDecodeError
| KeyError (key : string)
| TypeError
| AttributeError.

Inductive result (A : Type) : Type :=
| Ok (a : A)
| Raise (e : exn).
Arguments Ok {A} a.
Arguments Raise {A} e.

(** The lines printed so far, oldest first; [print] ends each with a
    newline, which [render] writes out. *)
Definition stdout : Type := list string.

Infix "+++" := (@app string) (right associativity, at level 60).

Definition newline : string := String "010"%char EmptyString.

Fixpoint render (out : stdout) : string :=
  match out with
  | [] => ""
  | line :: out' => line ++ newline ++ render out'
  end.

Fixpoint newline_free (s : string) : bool :=
  match s with
  | EmptyString => true
  | String c r => negb (Ascii.eqb c "010"%char) && newline_free r
  end.

(** The lines of a text: what each newline ends, and what follows the
    last one when that is not empty. *)
Fixpoint split_lines (text : string) : list string :=
  match text with
  | EmptyString => []
  | String c r =>
      if Ascii.eqb c "010"%char then EmptyString :: split_lines r
      else
        match split_lines r with
        | [] => [String c EmptyString]
        | line :: lines => String c line :: lines
        end
  end.

Definition M (A : Type) : Type := stdout -> result A * stdout.

Definition ret {A} (a : A) : M A := fun out => (Ok a, out).

Definition bind {A B} (c : M A) (k : A -> M B) : M B :=
  fun out =>
    match c out with
    | (Ok a, out') => k a out'
    | (Raise e, out') => (Raise e, out')
    end.

Definition raise {A} (e : exn) : M A := fun out => (Raise e, out).

Definition lift {A} (r : result A) : M A := fun out => (r, out).

Definition print (line : string) : M unit := fun out => (Ok tt, (out ++ [line])%list).

Declare Scope py_scope.
Delimit Scope py_scope with py.
Notation "x <- c ;; k" := (bind c (fun x => k))
  (at level 100, c at next level, right associativity) : py_scope.
Notation "c ;; k" := (bind c (fun _ => k))
  (at level 100, right associativity) : py_scope.
Local Open Scope py_scope.

(** [for x in l: body] *)
Fixpoint for_each {A} (l : list A) (body : A -> M unit) : M unit :=
  match l with
  | [] => ret tt
  | x :: l' => body x ;; for_each l' body
  end.

(** ** The built-ins the command calls *)

(** [obj[key]] with a string key: a [dict] raises [KeyError] when the key
    is absent; a [list] or [str] refuses a string index and the other
    values are not subscriptable, both with [TypeError]. *)
Definition py_getitem (obj : value) (key : string) : result value :=
  match obj with
  | VDict d =>
      match lookup key d with
      | Some v => Ok v
      | None => Raise (KeyError key)
      end
  | _ => Raise TypeError
  end.

(** [obj.get(key, default)]: only a [dict] has the method. *)
Definition py_get (obj : value) (key : string) (default : value) : result value :=
  match obj with
  | VDict d =>
      match lookup key d with
      | Some v => Ok v
      | None => Ok default
      end
  | _ => Raise AttributeError
  end.

(** [obj.items()]: only a [dict] has the method. *)
Definition py_items (obj : value) : result (list (string * value)) :=
  match obj with
  | VDict d => Ok d
  | _ => Raise AttributeError
  end.

(** Truth value, as [not obj] tests it. *)
Definition truthy (v : value) : bool :=
  match v with
  | VNull => false
  | VBool b => b
  | VInt z => negb (z =? 0)%Z
  | VFloat (S754_zero _) => false
  | VFloat _ => true
  | VStr s => negb (s =? "")
  | VList l => match l with [] => false | _ => true end
  | VDict d => match d with [] => false | _ => true end
  end.

(** [sorted] on the [(name, value)] pairs of a [dict]: tuples compare by
    their first component, and the second is looked at only between equal
    names, which a [dict] never holds. *)
Module ItemOrder <: TotalLeBool.
Definition t : Type := (string * value)%type.
Definition leb (a b : t) : bool := String.leb (fst a) (fst b).
Theorem leb_total : forall a b, leb a b = true \/ leb b a = true.
Proof.
  intros [x ?] [y ?]; unfold leb, String.leb; simpl.
  rewrite (String.compare_antisym y x).
  destruct (String.compare x y); simpl; auto.
Qed.
End ItemOrder.

Module ItemSort := Sort ItemOrder.

Definition sorted (items : list (string * value)) : list (string * value) :=
  ItemSort.sort items.

(** [str] of an [int]: its decimal digits, with a leading minus sign when
    negative. *)
Definition int_str (z : Z) : string := NilZero.string_of_int (Z.to_int z).

(** ** What [json.load] does with the text of the standard input

    The decoder of Python's [json] module as [main] calls it, with its
    default settings: besides the grammar of JSON it accepts the three
    constants [NaN], [Infinity] and [-Infinity]; a string may not hold a
    raw control character; of a key that occurs twice the last value is
    kept, at the place of the first.  The text is the [str] read from the
    stream, as its UTF-8 bytes.  A number with a fraction or an exponent
    becomes the nearest binary64, ties to even.  [constants] says
    whether the three constants are accepted: [loads true] is the
    decoder as called, [loads false] what is left of it when they are
    refused, which is the grammar of JSON.  The scanner descends with a
    fuel that the length of the text bounds ([loads_fed]).  An escape
    that names a lone surrogate is kept under the same byte scheme as
    any other code point.  A stream that is not UTF-8 text, on which the
    read fails before the decoder runs, and the interpreter's limits on
    the depth of nesting and on the number of digits of an integer are
    outside the model. *)
Module Json.

Inductive parse (A : Type) : Type :=
| Parsed (a : A) (rest : string)
| Failed
| Starved.
Arguments Parsed {A} a rest.
Arguments Failed {A}.
Arguments Starved {A}.

Definition quote : ascii := "034"%char.
Definition backslash : ascii := "092"%char.

Definition is_ws (c : ascii) : bool :=
  let n := N_of_ascii c in
  ((n =? 32) || (n =? 9) || (n =? 10) || (n =? 13))%N.

Fixpoint skip_ws (s : string) : string :=
  match s with
  | String c r => if is_ws c then skip_ws r else s
  | EmptyString => s
  end.

Fixpoint strip_prefix (p s : string) : option string :=
  match p, s with
  | EmptyString, _ => Some s
  | String a p', String b s' => if Ascii.eqb a b then strip_prefix p' s' else None
  | String _ _, EmptyString => None
  end.

Definition is_digit (c : ascii) : bool :=
  let n := N_of_ascii c in ((48 <=? n) && (n <=? 57))%N.

Definition digit_value (c : ascii) : Z := Z.of_N (N_of_ascii c) - 48.

Fixpoint span_digits (s : string) : string * string :=
  match s with
  | String c r =>
      if is_digit c then let '(ds, rest) := span_digits r in (String c ds, rest)
      else (EmptyString, s)
  | EmptyString => (EmptyString, s)
  end.

Fixpoint digits_value (ds : string) (acc : Z) : Z :=
  match ds with
  | String c r => digits_value r (10 * acc + digit_value c)
  | EmptyString => acc
  end.

Definition hex_value (c : ascii) : option N :=
  let n := N_of_ascii c in
  if ((48 <=? n) && (n <=? 57))%N then Some (n - 48)%N
  else if ((97 <=? n) && (n <=? 102))%N then Some (n - 87)%N
  else if ((65 <=? n) && (n <=? 70))%N then Some (n - 55)%N
  else None.

Definition hex4 (a b c d : ascii) : option N :=
  match hex_value a, hex_value b, hex_value c, hex_value d with
  | Some x, Some y, Some z, Some w => Some (((x * 16 + y) * 16 + z) * 16 + w)%N
  | _, _, _, _ => None
  end.

Definition byte (n : N) : string := String (ascii_of_N n) EmptyString.

Definition utf8 (cp : N) : string :=
  (if cp <? 128 then byte cp
   else if cp <? 2048 then
     byte (192 + cp / 64) ++ byte (128 + cp mod 64)
   else if cp <? 65536 then
     byte (224 + cp / 4096) ++ byte (128 + (cp / 64) mod 64) ++ byte (128 + cp mod 64)
   else
     byte (240 + cp / 262144) ++ byte (128 + (cp / 4096) mod 64)
       ++ byte (128 + (cp / 64) mod 64) ++ byte (128 + cp mod 64))%N.

Definition is_high_surrogate (cp : N) : bool := ((55296 <=? cp) && (cp <=? 56319))%N.
Definition is_low_surrogate (cp : N) : bool := ((56320 <=? cp) && (cp <=? 57343))%N.
Definition join_surrogates (hi lo : N) : N :=
  (65536 + (hi - 55296) * 1024 + (lo - 56320))%N.

Definition unescape (c : ascii) : option ascii :=
  let n := N_of_ascii c in
  (if n =? 34 then Some quote
   else if n =? 92 then Some backslash
   else if n =? 47 then Some "/"%char
   else if n =? 98 then Some "008"%char
   else if n =? 102 then Some "012"%char
   else if n =? 110 then Some "010"%char
   else if n =? 114 then Some "013"%char
   else if n =? 116 then Some "009"%char
   else None)%N.

Fixpoint scanstring (s : string) (acc : string) : option (string * string) :=
  match s with
  | EmptyString => None
  | String c r =>
      if Ascii.eqb c quote then Some (acc, r)
      else if Ascii.eqb c backslash then
        match r with
        | EmptyString => None
        | String e r1 =>
            if Ascii.eqb e "u"%char then
              match r1 with
              | String h1 (String h2 (String h3 (String h4 r2))) =>
                  match hex4 h1 h2 h3 h4 with
                  | None => None
                  | Some cp =>
                      if is_high_surrogate cp then
                        match r2 with
                        | String b (String u (String l1 (String l2 (String l3 (String l4 r3))))) =>
                            if Ascii.eqb b backslash && Ascii.eqb u "u"%char then
                              match hex4 l1 l2 l3 l4 with
                              | None => None
                              | Some cp2 =>
                                  if is_low_surrogate cp2
                                  then scanstring r3 (acc ++ utf8 (join_surrogates cp cp2))
                                  else scanstring r2 (acc ++ utf8 cp)
                              end
                            else scanstring r2 (acc ++ utf8 cp)
                        | _ => scanstring r2 (acc ++ utf8 cp)
                        end
                      else scanstring r2 (acc ++ utf8 cp)
                  end
              | _ => None
              end
            else
              match unescape e with
              | Some ch => scanstring r1 (acc ++ String ch EmptyString)
              | None => None
              end
        end
      else if (N_of_ascii c <=? 31)%N then None
      else scanstring r (acc ++ String c EmptyString)
  end.

Definition float_of_decimal (negative : bool) (digits : Z) (exponent : Z) : spec_float :=
  match digits with
  | Zpos d =>
      match exponent with
      | Zneg e => SFdiv 53 1024 (S754_finite negative d 0) (S754_finite false (10 ^ e) 0)
      | _ => binary_normalize 53 1024
               (if negative then - (digits * 10 ^ exponent) else digits * 10 ^ exponent)%Z
               0 negative
      end
  | _ => S754_zero negative
  end.

(** The optional minus sign. *)
Definition sign_part (s : string) : bool * string :=
  match s with
  | String c r => if Ascii.eqb c "-"%char then (true, r) else (false, s)
  | EmptyString => (false, s)
  end.

(** [0], or a non-zero digit and the digits after it. *)
Definition int_part (s : string) : option (string * string) :=
  match s with
  | String c r =>
      if is_digit c then
        Some (if Ascii.eqb c "0"%char then (String c EmptyString, r) else span_digits s)
      else None
  | EmptyString => None
  end.

(** A point followed by at least one digit, when there is one. *)
Definition frac_part (s : string) : string * string :=
  match s with
  | String dot (String d r) =>
      if Ascii.eqb dot "."%char && is_digit d
      then span_digits (String d r) else (EmptyString, s)
  | _ => (EmptyString, s)
  end.

(** The optional sign of an exponent. *)
Definition exp_sign (s : string) : bool * string :=
  match s with
  | String c r =>
      if Ascii.eqb c "-"%char then (true, r)
      else if Ascii.eqb c "+"%char then (false, r)
      else (false, s)
  | EmptyString => (false, s)
  end.

(** [e] or [E], an optional sign and at least one digit, when there are. *)
Definition exp_part (s : string) : option Z * string :=
  match s with
  | String e r =>
      if Ascii.eqb e "e"%char || Ascii.eqb e "E"%char then
        let '(exp_negative, r') := exp_sign r in
        match span_digits r' with
        | (EmptyString, _) => (None, s)
        | (ds, rest) =>
            (Some (if exp_negative then - digits_value ds 0 else digits_value ds 0)%Z, rest)
        end
      else (None, s)
  | EmptyString => (None, s)
  end.

Definition match_number (s : string) : parse value :=
  let '(negative, s1) := sign_part s in
  match int_part s1 with
  | Some (int_digits, s2) =>
      let '(frac_digits, s3) := frac_part s2 in
      let '(exp, s4) := exp_part s3 in
      match frac_digits, exp with
      | EmptyString, None =>
          Parsed (VInt (if negative then - digits_value int_digits 0
                        else digits_value int_digits 0)%Z) s4
      | _, _ =>
          Parsed (VFloat (float_of_decimal negative
                            (digits_value (int_digits ++ frac_digits) 0)
                            (match exp with Some e => e | None => 0 end
                             - Z.of_nat (String.length frac_digits))%Z)) s4
      end
  | None => Failed
  end.

Definition literal (constants : bool) (s : string) : option (value * string) :=
  match strip_prefix "null" s with
  | Some r => Some (VNull, r)
  | None =>
  match strip_prefix "true" s with
  | Some r => Some (VBool true, r)
  | None =>
  match strip_prefix "false" s with
  | Some r => Some (VBool false, r)
  | None =>
      if constants then
        match strip_prefix "NaN" s with
        | Some r => Some (VFloat S754_nan, r)
        | None =>
        match strip_prefix "Infinity" s with
        | Some r => Some (VFloat (S754_infinity false), r)
        | None =>
        match strip_prefix "-Infinity" s with
        | Some r => Some (VFloat (S754_infinity true), r)
        | None => None
        end end end
      else None
  end end end.

Fixpoint dict_set (key : string) (v : value) (d : list (string * value))
  : list (string * value) :=
  match d with
  | [] => [(key, v)]
  | (k, x) :: d' => if (k =? key)%string then (k, v) :: d' else (k, x) :: dict_set key v d'
  end.

Section Scanner.
Variable constants : bool.

Fixpoint scan_once (fuel : nat) (s : string) : parse value :=
  match fuel with
  | O => Starved
  | S fuel' =>
      match s with
      | EmptyString => Failed
      | String c r =>
          if Ascii.eqb c quote then
            match scanstring r EmptyString with
            | Some (str, rest) => Parsed (VStr str) rest
            | None => Failed
            end
          else if Ascii.eqb c "{"%char then
            match skip_ws r with
            | String c' r' =>
                if Ascii.eqb c' "}"%char then Parsed (VDict []) r'
                else members fuel' (String c' r') []
            | EmptyString => Failed
            end
          else if Ascii.eqb c "["%char then
            match skip_ws r with
            | String c' r' =>
                if Ascii.eqb c' "]"%char then Parsed (VList []) r'
                else elements fuel' (String c' r') []
            | EmptyString => Failed
            end
          else
            match literal constants s with
            | Some (v, rest) => Parsed v rest
            | None => match_number s
            end
      end
  end
with elements (fuel : nat) (s : string) (seen : list value) : parse value :=
  match fuel with
  | O => Starved
  | S fuel' =>
      match scan_once fuel' s with
      | Parsed v r =>
          match skip_ws r with
          | String c r' =>
              if Ascii.eqb c "]"%char then Parsed (VList (rev (v :: seen))) r'
              else if Ascii.eqb c ","%char then elements fuel' (skip_ws r') (v :: seen)
              else Failed
          | EmptyString => Failed
          end
      | Failed => Failed
      | Starved => Starved
      end
  end
with members (fuel : nat) (s : string) (seen : list (string * value)) : parse value :=
  match fuel with
  | O => Starved
  | S fuel' =>
      match s with
      | String c r =>
          if Ascii.eqb c quote then
            match scanstring r EmptyString with
            | Some (key, r1) =>
                match skip_ws r1 with
                | String colon r2 =>
                    if Ascii.eqb colon ":"%char then
                      match scan_once fuel' (skip_ws r2) with
                      | Parsed v r3 =>
                          match skip_ws r3 with
                          | String c' r4 =>
                              if Ascii.eqb c' "}"%char
                              then Parsed (VDict (dict_set key v seen)) r4
                              else if Ascii.eqb c' ","%char
                              then members fuel' (skip_ws r4) (dict_set key v seen)
                              else Failed
                          | EmptyString => Failed
                          end
                      | Failed => Failed
                      | Starved => Starved
                      end
                    else Failed
                | EmptyString => Failed
                end
            | None => Failed
            end
          else Failed
      | EmptyString => Failed
      end
  end.

Definition loads (s : string) : option value :=
  match scan_once (2 * String.length s + 1) (skip_ws s) with
  | Parsed v rest =>
      match skip_ws rest with
      | EmptyString => Some v
      | String _ _ => None
      end
  | _ => None
  end.

End Scanner.

(** [json.load], as [main] calls it. *)
Definition load (text : string) : option value := loads true text.

(** Whether a text is valid JSON. *)
Definition valid (text : string) : bool :=
  match loads false text with
  | Some _ => true
  | None => false
  end.

End Json.

(** ** Sample inputs

    Instances of Python's own functions that agree with them on the inputs
    of the examples at the end, and the documents those examples run. *)
Module Sample.

Definition float_repr (f : spec_float) : string :=
  match f with
  | S754_zero false => "0.0"
  | S754_zero true => "-0.0"
  | S754_infinity false => "inf"
  | S754_infinity true => "-inf"
  | S754_nan => "nan"
  | S754_finite _ _ _ => "1.5"  (* [one_and_a_half], the one that occurs *)
  end.

Definition str_repr (s : string) : string := "'" ++ s ++ "'".

Definition json_load (text : string) : option value :=
  if text =? "{}" then Some (VDict [])
  else if text =? "[1, 2]" then Some (VList [VInt 1; VInt 2])
  else if text =? "null" then Some VNull
  else None.

Definition web : value :=
  VDict [("dns_name", VStr "web.svc"); ("internal_port", VInt 8080);
         ("url", VStr "http://web.acme.dev")].

Definition api : value :=
  VDict [("dns_name", VStr "api.svc"); ("internal_port", VInt 9090);
         ("url", VStr "http://api.acme.dev")].

Definition identity : dict :=
  [("project_name", VStr "acme"); ("hash", VStr "abc123");
   ("base_domain", VStr "acme.dev")].

Definition acme_empty : dict := (identity ++ [("services", VDict [])])%list.

Definition two_services : dict := [("web", web); ("api", api)].

Definition acme : dict := (identity ++ [("services", VDict two_services)])%list.

(** [web] has lost its [url], [db] its port. *)
Definition web_no_url : dict :=
  [("dns_name", VStr "web.svc"); ("internal_port", VInt 8080)].

Definition broken_services : dict :=
  [("web", VDict web_no_url);
   ("db", VDict [("dns_name", VStr "db.svc"); ("url", VStr "tcp://db")]);
   ("api", api)].

Definition acme_broken : dict :=
  (identity ++ [("services", VDict broken_services)])%list.

(** The port of [web] as a string, its [url] as a list; the port of
    [api] as a float. *)
Definition one_and_a_half : spec_float :=
  S754_finite false 6755399441055744 (-52).

Definition web_untyped : dict :=
  [("dns_name", VNull); ("internal_port", VStr "8080");
   ("url", VList [VStr "a"; VBool true])].

Definition api_float_port : dict :=
  [("dns_name", VStr "api.svc"); ("internal_port", VFloat one_and_a_half);
   ("url", VStr "http://api.acme.dev")].

Definition untyped_services : dict :=
  [("web", VDict web_untyped); ("api", VDict api_float_port)].

Definition acme_untyped : dict :=
  (identity ++ [("services", VDict untyped_services)])%list.

(** [web] is down to a number. *)
Definition flattened_services : dict := [("web", VInt 0); ("api", api)].

Definition acme_flattened : dict :=
  (identity ++ [("services", VDict flattened_services)])%list.

(** [web] with its keys in another order and one key more. *)
Definition web_verbose : value :=
  VDict [("url", VStr "http://web.acme.dev"); ("health", VStr "ok");
         ("dns_name", VStr "web.svc"); ("internal_port", VInt 8080)].

Definition verbose_services : dict := [("web", web_verbose); ("api", api)].

Definition acme_verbose : dict :=
  (identity ++ [("services", VDict verbose_services)])%list.

(** A text that holds a key in double quotes. *)
Definition quoted (s : string) : string :=
  String Json.quote s ++ String Json.quote EmptyString.

(** The identity of the project and a load average that is not a
    number: an object in all but the constant [NaN]. *)
Definition nan_document : string :=
  "{" ++ quoted "project_name" ++ ": " ++ quoted "acme" ++ ", "
      ++ quoted "hash" ++ ": " ++ quoted "abc123" ++ ", "
      ++ quoted "base_domain" ++ ": " ++ quoted "acme.dev" ++ ", "
      ++ quoted "load" ++ ": NaN}".

End Sample.

Section Command.

(** [repr] of a [float] and of a [str], and [json.load] on the text of the
    standard input ([None] when the decoder raises), are Python's own; the
    command is verified for whatever they compute. *)
Variable float_repr : spec_float -> string.
Variable str_repr : string -> string.
Variable json_load : string -> option value.

(** [repr(v)]; a [list] and a [dict] print their members with [repr]. *)
Fixpoint py_repr (v : value) : string :=
  match v with
  | VNull => "None"
  | VBool true => "True"
  | VBool false => "False"
  | VInt z => int_str z
  | VFloat f => float_repr f
  | VStr s => str_repr s
  | VList l => "[" ++ String.concat ", " (map py_repr l) ++ "]"
  | VDict d =>
      "{" ++ String.concat ", "
               (map (fun kv => let '(k, x) := kv in
                               str_repr k ++ ": " ++ py_repr x) d) ++ "}"
  end.

(** [str(v)], which is what an f-string field with no format spec
    inserts: a [str] as it is, anything else as its [repr]. *)
Definition py_str (v : value) : string :=
  match v with
  | VStr s => s
  | _ => py_repr v
  end.

(** The body of the [for] loop: one service block. *)
Definition service_block (item : string * value) : M unit :=
  let '(name, svc) := item in
  print ("  " ++ name ++ ":") ;;
  dns_name <- lift (py_getitem svc "dns_name") ;;
  print ("    DNS:  " ++ py_str dns_name) ;;
  internal_port <- lift (py_getitem svc "internal_port") ;;
  print ("    Port: " ++ py_str internal_port) ;;
  url <- lift (py_getitem svc "url") ;;
  print ("    URL:  " ++ py_str url) ;;
  print "".

(** [main] once [context] is bound. *)
Definition main_body (context : value) : M unit :=
  project_name <- lift (py_getitem context "project_name") ;;
  print ("Project: " ++ py_str project_name) ;;
  hash <- lift (py_getitem context "hash") ;;
  print ("Hash: " ++ py_str hash) ;;
  base_domain <- lift (py_getitem context "base_domain") ;;
  print ("Domain: " ++ py_str base_domain) ;;
  print "" ;;
  services <- lift (py_get context "services" (VDict [])) ;;
  if negb (truthy services) then
    print "No services configured."
  else
    print "Services:" ;;
    items <- lift (py_items services) ;;
    for_each (sorted items) service_block.

Definition main (stdin : string) : M unit :=
  context <- (match json_load stdin with
              | Some v => ret v
              | None => raise JSONDecodeError
              end) ;;
  main_body context.

(** ** The shape of the report

    What the properties below compare the printed lines with. *)

Definition header_lines (project_name hash base_domain : value) : list string :=
  [ "Project: " ++ py_str project_name;
    "Hash: " ++ py_str hash;
    "Domain: " ++ py_str base_domain;
    "" ].

(** The three sub-fields of a service entry, when it is a [dict] that
    holds them all. *)
Definition fields_of (svc : value) : option (value * value * value) :=
  match svc with
  | VDict o =>
      match lookup "dns_name" o, lookup "internal_port" o, lookup "url" o with
      | Some dns_name, Some internal_port, Some url =>
          Some (dns_name, internal_port, url)
      | _, _, _ => None
      end
  | _ => None
  end.

Definition complete (item : string * value) : bool :=
  match fields_of (snd item) with
  | Some _ => true
  | None => false
  end.

Definition block_of (name : string) (dns_name internal_port url : value) : list string :=
  [ "  " ++ name ++ ":";
    "    DNS:  " ++ py_str dns_name;
    "    Port: " ++ py_str internal_port;
    "    URL:  " ++ py_str url;
    "" ].

Definition block_lines (item : string * value) : list string :=
  match fields_of (snd item) with
  | Some (dns_name, internal_port, url) =>
      block_of (fst item) dns_name internal_port url
  | None => []
  end.

(** The first sub-field, in the order the loop reads them, that the entry
    [o] lacks. *)
Definition first_missing (o : dict) : option string :=
  match lookup "dns_name" o, lookup "internal_port" o, lookup "url" o with
  | None, _, _ => Some "dns_name"
  | Some _, None, _ => Some "internal_port"
  | Some _, Some _, None => Some "url"
  | Some _, Some _, Some _ => None
  end.

(** The lines of a block that come before the first lacking sub-field. *)
Definition partial_lines (name : string) (o : dict) : list string :=
  ("  " ++ name ++ ":") ::
  match lookup "dns_name" o with
  | None => []
  | Some dns_name =>
      ("    DNS:  " ++ py_str dns_name) ::
      match lookup "internal_port" o with
      | None => []
      | Some internal_port => [ "    Port: " ++ py_str internal_port ]
      end
  end.

Definition is_object (v : value) : bool :=
  match v with
  | VDict _ => true
  | _ => false
  end.

Definition incomplete (item : string * value) : bool := negb (complete item).

(** What [main] does once the header is printed. *)
Definition services_part (context : value) : M unit :=
  services <- lift (py_get context "services" (VDict [])) ;;
  if negb (truthy services) then
    print "No services configured."
  else
    print "Services:" ;;
    items <- lift (py_items services) ;;
    for_each (sorted items) service_block.

(** A computation that only appends to the standard output, with a result
    and a text that do not depend on what was there before. *)
Definition appends {A} (c : M A) : Prop :=
  exists r emitted, forall out, c out = (r, (out ++ emitted)%list).

(** ** The documents [main] prints to the end

    What the converse properties below compare the runs with. *)

(** What [services] may hold for the part after the header to run to its
    end: nothing, a falsy value, or a mapping whose entries all carry
    their three sub-fields. *)
Definition services_ok (services : option value) : bool :=
  match services with
  | None => true
  | Some v =>
      if truthy v then
        match v with
        | VDict svcs => forallb complete svcs
        | _ => false
        end
      else true
  end.

Definition accepts (context : value) : bool :=
  match context with
  | VDict d =>
      match lookup "project_name" d, lookup "hash" d, lookup "base_domain" d with
      | Some _, Some _, Some _ => services_ok (lookup "services" d)
      | _, _, _ => false
      end
  | _ => false
  end.

(** The six keys the command subscripts with. *)
Definition subscripted_keys : list string :=
  ["project_name"; "hash"; "base_domain"; "dns_name"; "internal_port"; "url"].

(** Two entries of the same name that hold the same three sub-fields. *)
Definition same_block (a b : string * value) : Prop :=
  fst a = fst b /\ fields_of (snd a) = fields_of (snd b).

(** An entry whose name and three printed values hold no newline. *)
Definition newline_free_item (item : string * value) : bool :=
  newline_free (fst item) &&
  match fields_of (snd item) with
  | Some (dns_name, internal_port, url) =>
      newline_free (py_str dns_name) && newline_free (py_str internal_port)
      && newline_free (py_str url)
  | None => true
  end.

(** An entry cut down to its three sub-fields. *)
Definition essence (item : string * value) : string * value :=
  match fields_of (snd item) with
  | Some (dns_name, internal_port, url) =>
      (fst item,
       VDict [("dns_name", dns_name); ("internal_port", internal_port); ("url", url)])
  | None => item
  end.

(** ** The order on names *)

Definition name_lt (a b : string * value) : Prop :=
  String.ltb (fst a) (fst b) = true.

Lemma compare_as_OT (s t : string) :
  OrdersEx.String_as_OT.compare s t = String.compare s t.
Proof.
  revert t; induction s as [|c s IH]; intros [|c' t]; reflexivity.
Qed.

Lemma compare_Lt_trans (a b c : string) :
  String.compare a b = Lt -> String.compare b c = Lt -> String.compare a c = Lt.
Proof.
  rewrite <- !compare_as_OT.
  apply (@StrictOrder_Transitive _ _ OrdersEx.String_as_OT.lt_strorder).
Qed.

Lemma compare_refl (a : string) : String.compare a a = Eq.
Proof.
  rewrite <- compare_as_OT.
  destruct (OrdersEx.String_as_OT.compare_spec a a) as [_|H|H]; try reflexivity;
    exfalso; revert H; apply (@StrictOrder_Irreflexive _ _ OrdersEx.String_as_OT.lt_strorder).
Qed.

Lemma ltb_trans (a b c : string) :
  String.ltb a b = true -> String.ltb b c = true -> String.ltb a c = true.
Proof.
  unfold String.ltb. intros Hab Hbc.
  destruct (String.compare a b) eqn:E1; try discriminate.
  destruct (String.compare b c) eqn:E2; try discriminate.
  now rewrite (compare_Lt_trans _ _ _ E1 E2).
Qed.

Lemma ltb_irrefl (a : string) : String.ltb a a = false.
Proof. unfold String.ltb. now rewrite compare_refl. Qed.

Lemma leb_cases (a b : string) :
  String.leb a b = true <-> a = b \/ String.ltb a b = true.
Proof.
  unfold String.leb, String.ltb. split.
  - destruct (String.compare a b) eqn:E; try discriminate; auto.
    left. now apply String.compare_eq_iff.
  - intros [->|H].
    + now rewrite compare_refl.
    + destruct (String.compare a b); try discriminate; reflexivity.
Qed.

Lemma leb_trans (a b c : string) :
  String.leb a b = true -> String.leb b c = true -> String.leb a c = true.
Proof.
  rewrite !leb_cases. intros [->|Hab] [->|Hbc]; auto.
  right. eapply ltb_trans; eassumption.
Qed.

Lemma item_leb_transitive : Transitive (fun a b => is_true (ItemOrder.leb a b)).
Proof. intros a b c. unfold ItemOrder.leb, is_true. apply leb_trans. Qed.

Lemma nodupb_NoDup (l : list string) : nodupb l = true <-> NoDup l.
Proof.
  induction l as [|x l IH]; simpl.
  - split; [constructor | reflexivity].
  - rewrite andb_true_iff, negb_true_iff, IH. split.
    + intros [Hx Hl]. constructor; [|assumption].
      intros Hin. assert (existsb (String.eqb x) l = true); [|congruence].
      apply existsb_exists. exists x. split; [assumption | apply String.eqb_refl].
    + intros H. inversion H as [|? ? Hx Hl]; subst. split; [|assumption].
      destruct (existsb (String.eqb x) l) eqn:E; [|reflexivity].
      apply existsb_exists in E. destruct E as [y [Hy Hxy]].
      apply String.eqb_eq in Hxy. subst. contradiction.
Qed.

(** ** [sorted] *)

Lemma sorted_perm (items : list (string * value)) :
  Permutation items (sorted items).
Proof. apply ItemSort.Permuted_sort. Qed.

Lemma sorted_nondecreasing (items : list (string * value)) :
  StronglySorted (fun a b => is_true (ItemOrder.leb a b)) (sorted items).
Proof. apply ItemSort.StronglySorted_sort, item_leb_transitive. Qed.

Lemma nondecreasing_strict (l : list (string * value)) :
  NoDup (keys l) ->
  StronglySorted (fun a b => is_true (ItemOrder.leb a b)) l ->
  StronglySorted name_lt l.
Proof.
  induction l as [|a l IH]; intros Hnd Hs; [constructor|].
  inversion Hnd as [|? ? Ha Hl]; subst.
  apply StronglySorted_inv in Hs. destruct Hs as [Hs Hall].
  constructor; [now apply IH|].
  rewrite Forall_forall in *. intros b Hb.
  specialize (Hall b Hb). unfold ItemOrder.leb, is_true in Hall.
  apply leb_cases in Hall. destruct Hall as [E|Hlt]; [|exact Hlt].
  exfalso. apply Ha. rewrite E. unfold keys. now apply in_map.
Qed.

Lemma sorted_strict (items : list (string * value)) :
  NoDup (keys items) -> StronglySorted name_lt (sorted items).
Proof.
  intros Hnd. apply nondecreasing_strict; [|apply sorted_nondecreasing].
  unfold keys. eapply Permutation_NoDup; [|exact Hnd].
  apply Permutation_map, sorted_perm.
Qed.

Lemma strict_sorted_unique (l l' : list (string * value)) :
  StronglySorted name_lt l -> StronglySorted name_lt l' ->
  Permutation l l' -> l = l'.
Proof.
  revert l'. induction l as [|a l IH]; intros l' Hs Hs' Hp.
  - now apply Permutation_nil in Hp.
  - destruct l' as [|b l'].
    + symmetry in Hp. now apply Permutation_nil in Hp.
    + apply StronglySorted_inv in Hs. destruct Hs as [Hs Ha].
      apply StronglySorted_inv in Hs'. destruct Hs' as [Hs' Hb].
      assert (Hab : a = b).
      { assert (Hin : In a (b :: l')).
        { eapply Permutation_in; [exact Hp | now left]. }
        assert (Hin' : In b (a :: l)).
        { eapply Permutation_in; [symmetry; exact Hp | now left]. }
        destruct Hin as [E|Hin]; [now symmetry|].
        destruct Hin' as [E|Hin']; [assumption|].
        rewrite Forall_forall in Ha, Hb.
        specialize (Ha b Hin'). specialize (Hb a Hin). unfold name_lt in *.
        pose proof (ltb_trans _ _ _ Ha Hb) as Hc.
        rewrite ltb_irrefl in Hc. discriminate. }
      subst b. f_equal. apply IH; try assumption.
      eapply Permutation_cons_inv; exact Hp.
Qed.

Lemma sorted_order_independent (l l' : list (string * value)) :
  NoDup (keys l) -> Permutation l l' -> sorted l = sorted l'.
Proof.
  intros Hnd Hp.
  assert (Hnd' : NoDup (keys l')).
  { unfold keys. eapply Permutation_NoDup; [|exact Hnd]. now apply Permutation_map. }
  apply strict_sorted_unique; try now apply sorted_strict.
  rewrite <- (sorted_perm l), <- (sorted_perm l'). exact Hp.
Qed.

(** ** Running the command monad *)

Lemma bind_ok {A B} (c : M A) (k : A -> M B) (out out' : stdout) (a : A) :
  c out = (Ok a, out') -> bind c k out = k a out'.
Proof. unfold bind. now intros ->. Qed.

Lemma bind_raise {A B} (c : M A) (k : A -> M B) (out out' : stdout) (e : exn) :
  c out = (Raise e, out') -> bind c k out = (Raise e, out').
Proof. unfold bind. now intros ->. Qed.

Lemma appends_ret {A} (a : A) : appends (ret a).
Proof. exists (Ok a), []. intros out. unfold ret. now rewrite app_nil_r. Qed.

Lemma appends_raise {A} (e : exn) : appends (@raise A e).
Proof. exists (Raise e), []. intros out. unfold raise. now rewrite app_nil_r. Qed.

Lemma appends_lift {A} (r : result A) : appends (lift r).
Proof. exists r, []. intros out. unfold lift. now rewrite app_nil_r. Qed.

Lemma appends_print (line : string) : appends (print line).
Proof. exists (Ok tt), [line]. reflexivity. Qed.

Lemma appends_bind {A B} (c : M A) (k : A -> M B) :
  appends c -> (forall a, appends (k a)) -> appends (bind c k).
Proof.
  intros [r [em Hc]] Hk. destruct r as [a|e].
  - destruct (Hk a) as [r' [em' Hka]].
    exists r', (em ++ em')%list. intros out.
    rewrite (bind_ok _ _ _ _ _ (Hc out)), Hka. now rewrite app_assoc.
  - exists (Raise e), em. intros out. now rewrite (bind_raise _ _ _ _ _ (Hc out)).
Qed.

Lemma appends_for_each {A} (l : list A) (body : A -> M unit) :
  (forall x, appends (body x)) -> appends (for_each l body).
Proof.
  intros Hb. induction l as [|x l IH]; simpl.
  - apply appends_ret.
  - apply appends_bind; [apply Hb | intros _; exact IH].
Qed.

Create HintDb appends.
#[local] Hint Resolve appends_ret appends_raise appends_lift appends_print : appends.

Ltac appends_steps :=
  repeat first
    [ apply appends_bind; [ | intro ]
    | apply appends_print | apply appends_lift
    | apply appends_ret | apply appends_raise ].

Lemma appends_service_block (item : string * value) : appends (service_block item).
Proof. destruct item as [name svc]. unfold service_block. appends_steps. Qed.

Lemma appends_main_body (context : value) : appends (main_body context).
Proof.
  unfold main_body. appends_steps.
  destruct (negb (truthy _)); appends_steps.
  apply appends_for_each, appends_service_block.
Qed.

Lemma main_decoded (stdin : string) (context : value) (out : stdout) :
  json_load stdin = Some context -> main stdin out = main_body context out.
Proof. unfold main. now intros ->. Qed.

Lemma appends_main (stdin : string) : appends (main stdin).
Proof.
  unfold main. apply appends_bind.
  - destruct (json_load stdin); auto with appends.
  - apply appends_main_body.
Qed.

(** ** The loop over the service entries *)

Ltac run_monad :=
  unfold bind, lift, print, ret, raise; simpl;
  repeat rewrite <- app_assoc; simpl.

Lemma service_block_complete name svc dns_name internal_port url out :
  fields_of svc = Some (dns_name, internal_port, url) ->
  service_block (name, svc) out
  = (Ok tt, (out ++ block_of name dns_name internal_port url)%list).
Proof.
  destruct svc as [| | | | | |o]; simpl; try discriminate.
  destruct (lookup "dns_name" o) as [a|] eqn:Ea; try discriminate.
  destruct (lookup "internal_port" o) as [b|] eqn:Eb; try discriminate.
  destruct (lookup "url" o) as [c|] eqn:Ec; try discriminate.
  intros [= <- <- <-]. now run_monad.
Qed.

Lemma service_block_missing name o k out :
  first_missing o = Some k ->
  service_block (name, VDict o) out
  = (Raise (KeyError k), (out ++ partial_lines name o)%list).
Proof.
  unfold first_missing, service_block, partial_lines. cbv beta iota.
  unfold py_getitem.
  destruct (lookup "dns_name" o) as [a|];
    [destruct (lookup "internal_port" o) as [b|];
     [destruct (lookup "url" o) as [c|]|]|];
    try discriminate; intros [= <-]; now run_monad.
Qed.

Lemma service_block_not_object name svc out :
  is_object svc = false ->
  service_block (name, svc) out
  = (Raise TypeError, (out ++ [("  " ++ name ++ ":")%string])%list).
Proof. destruct svc; simpl; try discriminate; intros _; reflexivity. Qed.

Lemma first_missing_incomplete name o :
  complete (name, VDict o) = false -> exists k, first_missing o = Some k.
Proof.
  unfold complete, first_missing; simpl.
  destruct (lookup "dns_name" o); [|eauto].
  destruct (lookup "internal_port" o); [|eauto].
  destruct (lookup "url" o); [discriminate|eauto].
Qed.

Lemma service_block_incomplete item out :
  complete item = false -> exists e out', service_block item out = (Raise e, out').
Proof.
  destruct item as [name svc]. intros H.
  destruct (is_object svc) eqn:E.
  - destruct svc; try discriminate.
    destruct (first_missing_incomplete _ _ H) as [k Hk].
    rewrite (service_block_missing _ _ _ _ Hk). eauto.
  - rewrite (service_block_not_object _ _ _ E). eauto.
Qed.

Lemma block_lines_complete name svc dns_name internal_port url :
  fields_of svc = Some (dns_name, internal_port, url) ->
  block_lines (name, svc) = block_of name dns_name internal_port url.
Proof. unfold block_lines; simpl. now intros ->. Qed.

Lemma service_block_lines item out :
  complete item = true ->
  service_block item out = (Ok tt, (out ++ block_lines item)%list).
Proof.
  destruct item as [name svc]. unfold complete; simpl.
  destruct (fields_of svc) as [[[a b] c]|] eqn:E; try discriminate. intros _.
  rewrite (block_lines_complete _ _ _ _ _ E). now apply service_block_complete.
Qed.

Lemma for_each_complete items out :
  forallb complete items = true ->
  for_each items service_block out
  = (Ok tt, (out ++ flat_map block_lines items)%list).
Proof.
  revert out. induction items as [|x items IH]; intros out; simpl.
  - intros _. unfold ret. now rewrite app_nil_r.
  - rewrite andb_true_iff. intros [Hx Hl].
    rewrite (bind_ok _ _ _ _ _ (service_block_lines _ out Hx)), IH by assumption.
    now rewrite app_assoc.
Qed.

Lemma for_each_app (l1 l2 : list (string * value)) out :
  forallb complete l1 = true ->
  for_each (l1 ++ l2) service_block out
  = for_each l2 service_block (out ++ flat_map block_lines l1)%list.
Proof.
  revert out. induction l1 as [|x l1 IH]; intros out; simpl.
  - intros _. now rewrite app_nil_r.
  - rewrite andb_true_iff. intros [Hx Hl].
    rewrite (bind_ok _ _ _ _ _ (service_block_lines _ out Hx)), IH by assumption.
    now rewrite app_assoc.
Qed.

Lemma split_first_incomplete (items : list (string * value)) :
  existsb incomplete items = true ->
  exists good bad rest,
    items = (good ++ bad :: rest)%list /\
    forallb complete good = true /\ complete bad = false.
Proof.
  induction items as [|x items IH]; simpl; [discriminate|].
  destruct (complete x) eqn:Ex.
  - unfold incomplete at 1. rewrite Ex. simpl. intros H.
    destruct (IH H) as [good [bad [rest [-> [Hg Hb]]]]].
    exists (x :: good), bad, rest. simpl. now rewrite Ex, Hg.
  - intros _. exists [], x, items. auto.
Qed.

Lemma for_each_incomplete items out :
  existsb incomplete items = true ->
  exists e out', for_each items service_block out = (Raise e, out').
Proof.
  intros H. destruct (split_first_incomplete _ H) as [good [bad [rest [-> [Hg Hb]]]]].
  rewrite for_each_app by assumption. simpl.
  destruct (service_block_incomplete bad (out ++ flat_map block_lines good)%list Hb)
    as [e [out' He]].
  rewrite (bind_raise _ _ _ _ _ He). eauto.
Qed.

(** ** The header, and the part of [main] that follows it *)
Lemma main_body_header d p h b out :
  lookup "project_name" d = Some p ->
  lookup "hash" d = Some h ->
  lookup "base_domain" d = Some b ->
  main_body (VDict d) out
  = services_part (VDict d) (out ++ header_lines p h b)%list.
Proof.
  intros Hp Hh Hb. unfold main_body, services_part, py_getitem.
  rewrite Hp, Hh, Hb. now run_monad.
Qed.

Lemma services_part_falsy d v out :
  py_get (VDict d) "services" (VDict []) = Ok v -> truthy v = false ->
  services_part (VDict d) out = (Ok tt, (out ++ ["No services configured."])%list).
Proof.
  intros Hg Hv. unfold services_part. rewrite Hg. run_monad. now rewrite Hv.
Qed.

Lemma services_part_items d svcs out :
  lookup "services" d = Some (VDict svcs) -> svcs <> [] ->
  services_part (VDict d) out
  = for_each (sorted svcs) service_block (out ++ ["Services:"])%list.
Proof.
  intros Hs Hne. unfold services_part, py_get. rewrite Hs. run_monad.
  destruct svcs; [contradiction | reflexivity].
Qed.

Lemma complete_sorted svcs :
  forallb complete svcs = true -> forallb complete (sorted svcs) = true.
Proof.
  rewrite !forallb_forall. intros H x Hx. apply H.
  eapply Permutation_in; [symmetry; apply sorted_perm | exact Hx].
Qed.

Lemma main_body_complete d p h b svcs out :
  lookup "project_name" d = Some p ->
  lookup "hash" d = Some h ->
  lookup "base_domain" d = Some b ->
  lookup "services" d = Some (VDict svcs) -> svcs <> [] ->
  forallb complete svcs = true ->
  main_body (VDict d) out
  = (Ok tt, (out ++ header_lines p h b ++ "Services:"
                 :: flat_map block_lines (sorted svcs))%list).
Proof.
  intros Hp Hh Hb Hs Hne Hc.
  rewrite (main_body_header _ _ _ _ _ Hp Hh Hb), (services_part_items _ _ _ Hs Hne).
  rewrite for_each_complete by now apply complete_sorted.
  repeat rewrite <- app_assoc. reflexivity.
Qed.

(** ** Lookups do not depend on the order of the keys *)

Lemma lookup_None (k : string) (d : dict) :
  lookup k d = None <-> ~ In k (keys d).
Proof.
  induction d as [|[k' v] d IH]; simpl.
  - tauto.
  - destruct (String.eqb_spec k' k) as [->|Hne].
    + split; [discriminate | intros H; exfalso; apply H; now left].
    + rewrite IH. tauto.
Qed.

Lemma lookup_In (k : string) (v : value) (d : dict) :
  NoDup (keys d) -> (lookup k d = Some v <-> In (k, v) d).
Proof.
  induction d as [|[k' v'] d IH]; simpl; intros Hnd.
  - split; [discriminate | tauto].
  - inversion Hnd as [|? ? Hk Hd]; subst.
    destruct (String.eqb_spec k' k) as [->|Hne].
    + split.
      * intros [= ->]. now left.
      * intros [[= ->]|Hin]; [reflexivity|].
        exfalso. apply Hk. unfold keys.
        change k with (fst (k, v)). now apply in_map.
    + rewrite (IH Hd). split; [tauto|].
      intros [[= -> _]|Hin]; [congruence | assumption].
Qed.

Lemma lookup_Some_In (k : string) (v : value) (d : dict) :
  lookup k d = Some v -> In (k, v) d.
Proof.
  induction d as [|[k' v'] d IH]; simpl; [discriminate|].
  destruct (String.eqb_spec k' k) as [->|Hne].
  - intros [= ->]. now left.
  - intros H. right. now apply IH.
Qed.

(** What a well-formed document holds under a key is well formed; in
    particular no service name occurs twice. *)
Lemma wf_lookup (k : string) (v : value) (d : dict) :
  wf (VDict d) = true -> lookup k d = Some v -> wf v = true.
Proof.
  simpl. rewrite andb_true_iff, forallb_forall. intros [_ H] Hk.
  exact (H _ (lookup_Some_In _ _ _ Hk)).
Qed.

Lemma wf_services (d svcs : dict) :
  wf (VDict d) = true -> lookup "services" d = Some (VDict svcs) ->
  nodupb (keys svcs) = true.
Proof.
  intros Hwf Hs. pose proof (wf_lookup _ _ _ Hwf Hs) as H. simpl in H.
  now apply andb_true_iff in H.
Qed.

Lemma lookup_perm (k : string) (d d' : dict) :
  NoDup (keys d) -> Permutation d d' -> lookup k d = lookup k d'.
Proof.
  intros Hnd Hp.
  assert (Hnd' : NoDup (keys d')).
  { unfold keys. eapply Permutation_NoDup; [|exact Hnd]. now apply Permutation_map. }
  destruct (lookup k d) as [v|] eqn:E; symmetry.
  - apply (lookup_In _ _ _ Hnd'). eapply Permutation_in; [exact Hp|].
    now apply (lookup_In _ _ _ Hnd).
  - apply lookup_None. apply lookup_None in E. intros Hin. apply E.
    unfold keys in *. eapply Permutation_in; [|exact Hin].
    apply Permutation_map. now symmetry.
Qed.

Lemma main_body_agree d d' out :
  lookup "project_name" d = lookup "project_name" d' ->
  lookup "hash" d = lookup "hash" d' ->
  lookup "base_domain" d = lookup "base_domain" d' ->
  lookup "services" d = lookup "services" d' ->
  main_body (VDict d) out = main_body (VDict d') out.
Proof.
  intros Hp Hh Hb Hs. unfold main_body, py_getitem, py_get.
  now rewrite Hp, Hh, Hb, Hs.
Qed.

Lemma main_body_services_perm d d' svcs svcs' out :
  lookup "project_name" d = lookup "project_name" d' ->
  lookup "hash" d = lookup "hash" d' ->
  lookup "base_domain" d = lookup "base_domain" d' ->
  lookup "services" d = Some (VDict svcs) ->
  lookup "services" d' = Some (VDict svcs') ->
  NoDup (keys svcs) -> Permutation svcs svcs' ->
  main_body (VDict d) out = main_body (VDict d') out.
Proof.
  intros Hp Hh Hb Hs Hs' Hnd Hperm.
  assert (Ht : truthy (VDict svcs) = truthy (VDict svcs')).
  { destruct svcs, svcs'; try reflexivity.
    - now apply Permutation_nil in Hperm.
    - symmetry in Hperm. now apply Permutation_nil in Hperm. }
  unfold main_body, py_getitem, py_get. rewrite Hp, Hh, Hb, Hs, Hs'.
  destruct (lookup "project_name" d'); [|reflexivity].
  destruct (lookup "hash" d'); [|reflexivity].
  destruct (lookup "base_domain" d'); [|reflexivity].
  cbv [bind lift print py_items]. rewrite Ht.
  destruct (negb _); [reflexivity|].
  now rewrite (sorted_order_independent _ _ Hnd Hperm).
Qed.

Lemma main_body_missing_header d out :
  lookup "project_name" d = None \/ lookup "hash" d = None
    \/ lookup "base_domain" d = None ->
  exists e out', main_body (VDict d) out = (Raise e, out').
Proof.
  intros H. unfold main_body, py_getitem.
  destruct (lookup "project_name" d); [|run_monad; eauto].
  destruct (lookup "hash" d); [|run_monad; eauto].
  destruct (lookup "base_domain" d); [|run_monad; eauto].
  destruct H as [H|[H|H]]; discriminate.
Qed.

Lemma first_missing_spec o k :
  first_missing o = Some k ->
  In k ["dns_name"; "internal_port"; "url"] /\ lookup k o = None.
Proof.
  unfold first_missing.
  destruct (lookup "dns_name" o) eqn:Ea;
    [destruct (lookup "internal_port" o) eqn:Eb;
     [destruct (lookup "url" o) eqn:Ec|]|];
    try discriminate; intros [= <-]; simpl; auto.
Qed.

Lemma main_body_contains_block d p h b svcs name o dns_name internal_port url out :
  lookup "project_name" d = Some p ->
  lookup "hash" d = Some h ->
  lookup "base_domain" d = Some b ->
  lookup "services" d = Some (VDict svcs) ->
  forallb complete svcs = true ->
  In (name, VDict o) svcs ->
  lookup "dns_name" o = Some dns_name ->
  lookup "internal_port" o = Some internal_port ->
  lookup "url" o = Some url ->
  exists before after,
    main_body (VDict d) out
    = (Ok tt, (out ++ before ++ block_of name dns_name internal_port url ++ after)%list).
Proof.
  intros Hp Hh Hb Hs Hc Hin Ea Eb Ec.
  assert (Hne : svcs <> []) by (intros ->; destruct Hin).
  rewrite (main_body_complete _ _ _ _ _ _ Hp Hh Hb Hs Hne Hc).
  assert (Hin' : In (name, VDict o) (sorted svcs)).
  { eapply Permutation_in; [apply sorted_perm | exact Hin]. }
  destruct (in_split _ _ Hin') as [l1 [l2 E]]. rewrite E.
  rewrite flat_map_app. simpl.
  rewrite (block_lines_complete name (VDict o) dns_name internal_port url)
    by (simpl; now rewrite Ea, Eb, Ec).
  exists (header_lines p h b ++ "Services:" :: flat_map block_lines l1)%list,
         (flat_map block_lines l2).
  repeat rewrite <- app_assoc. reflexivity.
Qed.

Lemma string_app_assoc (a b c : string) : (a ++ b) ++ c = a ++ (b ++ c).
Proof. induction a as [|x a IH]; simpl; [reflexivity | now rewrite IH]. Qed.

Lemma render_app (out out' : stdout) :
  render (out ++ out')%list = render out ++ render out'.
Proof.
  induction out as [|line out IH]; simpl; [reflexivity|].
  now rewrite IH, !string_app_assoc.
Qed.

Lemma int_str_round_trip (z : Z) :
  option_map Z.of_int (NilZero.int_of_string (int_str z)) = Some z.
Proof.
  unfold int_str. rewrite NilZero.isi.
  - simpl. now rewrite DecimalZ.of_to.
  - destruct z; simpl; try discriminate.
    intros [= H]. now apply DecimalPos.Unsigned.to_uint_nonnil in H.
  - destruct z; simpl; try discriminate.
    intros [= H]. now apply DecimalPos.Unsigned.to_uint_nonnil in H.
Qed.

(** ** The properties of the report *)

(** C1. On a document that holds its three identity keys and a non-empty
    [services] mapping whose entries carry their three sub-fields, the
    report is the header, the line [Services:] and one block per entry,
    and the blocks come in strictly ascending order of the service name:
    the entries printed are a rearrangement of those of the mapping in
    which every name is smaller than all the names after it.  A document
    that holds the same entries under another key order prints the same
    report. *)
Theorem services_in_ascending_name_order d p h b svcs out :
  lookup "project_name" d = Some p ->
  lookup "hash" d = Some h ->
  lookup "base_domain" d = Some b ->
  lookup "services" d = Some (VDict svcs) ->
  truthy (VDict svcs) = true ->
  nodupb (keys svcs) = true ->
  forallb complete svcs = true ->
  exists entries,
    main_body (VDict d) out
    = (Ok tt, (out ++ header_lines p h b ++ "Services:"
                   :: flat_map block_lines entries)%list) /\
    Permutation svcs entries /\
    StronglySorted name_lt entries /\
    forall d' svcs',
      lookup "project_name" d' = Some p ->
      lookup "hash" d' = Some h ->
      lookup "base_domain" d' = Some b ->
      lookup "services" d' = Some (VDict svcs') ->
      Permutation svcs svcs' ->
      main_body (VDict d') out = main_body (VDict d) out.
Proof.
  intros Hp Hh Hb Hs Ht Hnd Hc. apply nodupb_NoDup in Hnd.
  exists (sorted svcs). repeat split.
  - apply main_body_complete; try assumption. now intros ->.
  - apply sorted_perm.
  - now apply sorted_strict.
  - intros d' svcs' Hp' Hh' Hb' Hs' Hperm. symmetry.
    apply (main_body_services_perm d d' svcs svcs'); congruence.
Qed.

(** C2. On a document that holds its three identity keys and whose
    [services] key is absent or maps to the empty mapping, the run
    succeeds and prints exactly five lines: [Project: <project_name>],
    [Hash: <hash>], [Domain: <base_domain>], an empty line and
    [No services configured.] *)
Theorem no_services_report d p h b out :
  lookup "project_name" d = Some p ->
  lookup "hash" d = Some h ->
  lookup "base_domain" d = Some b ->
  lookup "services" d = None \/ lookup "services" d = Some (VDict []) ->
  main_body (VDict d) out
  = (Ok tt, out +++ [ "Project: " ++ py_str p; "Hash: " ++ py_str h;
                      "Domain: " ++ py_str b; "";
                      "No services configured." ]).
Proof.
  intros Hp Hh Hb Hs. rewrite (main_body_header _ _ _ _ _ Hp Hh Hb).
  rewrite (services_part_falsy d (VDict [])).
  - unfold header_lines. now rewrite <- app_assoc.
  - unfold py_get. now destruct Hs as [-> | ->].
  - reflexivity.
Qed.

(** C3. On a top-level object that lacks one of [project_name], [hash]
    and [base_domain], the run raises [KeyError] for the first of them,
    in that order, that is absent; what it has printed by then is the
    header line of each required key before that one, built from the
    value the document holds, and nothing else. *)
Theorem missing_required_key_raises d k out :
  In k ["project_name"; "hash"; "base_domain"] ->
  lookup k d = None ->
  match lookup "project_name" d, lookup "hash" d, lookup "base_domain" d with
  | None, _, _ =>
      main_body (VDict d) out = (Raise (KeyError "project_name"), out)
  | Some p, None, _ =>
      main_body (VDict d) out
      = (Raise (KeyError "hash"), out +++ ["Project: " ++ py_str p])
  | Some p, Some h, None =>
      main_body (VDict d) out
      = (Raise (KeyError "base_domain"),
         out +++ ["Project: " ++ py_str p; "Hash: " ++ py_str h])
  | Some _, Some _, Some _ => False
  end.
Proof.
  intros Hk Hnone. unfold main_body, py_getitem.
  destruct (lookup "project_name" d) eqn:Ep; [|reflexivity].
  destruct (lookup "hash" d) eqn:Eh; [|reflexivity].
  destruct (lookup "base_domain" d) eqn:Eb; [|now run_monad].
  simpl in Hk. destruct Hk as [<-|[<-|[<-|[]]]]; congruence.
Qed.

(** Whatever the decoder, when it does not decode the text, or decodes
    it to a value that is not an object, the run fails before it prints
    anything: with the decoder's error in the first case, with
    [TypeError] from the first subscript in the second. *)
Lemma malformed_input_aborts stdin out :
  (forall v, json_load stdin = Some v -> is_object v = false) ->
  main stdin out
  = (Raise (match json_load stdin with
            | Some _ => TypeError
            | None => JSONDecodeError
            end), out).
Proof.
  intros H. unfold main.
  destruct (json_load stdin) as [v|]; [|reflexivity].
  specialize (H v eq_refl). destruct v; try discriminate; reflexivity.
Qed.

(** C5. On a document whose [services] mapping holds an entry that lacks
    one of [dns_name], [internal_port] and [url], the run never
    succeeds.  When the identity keys are there and every entry is an
    object, it raises [KeyError] for the first sub-field lacking in the
    first such entry in name order: the blocks of the entries before it
    are printed in full, its own block up to the lacking sub-field, and
    nothing of the entries after it. *)
Theorem incomplete_entry_aborts d svcs out :
  lookup "services" d = Some (VDict svcs) ->
  existsb incomplete svcs = true ->
  (exists e out', main_body (VDict d) out = (Raise e, out')) /\
  (forall p h b,
     lookup "project_name" d = Some p ->
     lookup "hash" d = Some h ->
     lookup "base_domain" d = Some b ->
     forallb (fun item => is_object (snd item)) svcs = true ->
     exists good name o k rest,
       sorted svcs = (good ++ (name, VDict o) :: rest)%list /\
       forallb complete good = true /\
       In k ["dns_name"; "internal_port"; "url"] /\
       lookup k o = None /\
       main_body (VDict d) out
       = (Raise (KeyError k),
          (out ++ header_lines p h b ++ "Services:"
               :: flat_map block_lines good ++ partial_lines name o)%list)).
Proof.
  intros Hs Hex.
  assert (Hne : svcs <> []) by (intros ->; discriminate).
  assert (Hex' : existsb incomplete (sorted svcs) = true).
  { apply existsb_exists in Hex. destruct Hex as [x [Hin Hx]].
    apply existsb_exists. exists x. split; [|exact Hx].
    eapply Permutation_in; [apply sorted_perm | exact Hin]. }
  split.
  - destruct (lookup "project_name" d) as [p|] eqn:Ep;
      [|apply main_body_missing_header; auto].
    destruct (lookup "hash" d) as [h|] eqn:Eh;
      [|apply main_body_missing_header; auto].
    destruct (lookup "base_domain" d) as [b|] eqn:Eb;
      [|apply main_body_missing_header; auto].
    rewrite (main_body_header _ _ _ _ _ Ep Eh Eb), (services_part_items _ _ _ Hs Hne).
    now apply for_each_incomplete.
  - intros p h b Hp Hh Hb Hobj.
    destruct (split_first_incomplete _ Hex') as [good [[name svc] [rest [E [Hg Hbad]]]]].
    assert (Hin : In (name, svc) svcs).
    { eapply Permutation_in; [symmetry; apply sorted_perm|].
      rewrite E. apply in_or_app. right. now left. }
    rewrite forallb_forall in Hobj. specialize (Hobj _ Hin). simpl in Hobj.
    destruct svc as [| | | | | |o]; try discriminate.
    destruct (first_missing_incomplete _ _ Hbad) as [k Hk].
    destruct (first_missing_spec _ _ Hk) as [Hin3 Hnone].
    exists good, name, o, k, rest. repeat split; try assumption.
    rewrite (main_body_header _ _ _ _ _ Hp Hh Hb), (services_part_items _ _ _ Hs Hne).
    rewrite E, for_each_app by assumption. simpl.
    rewrite (bind_raise _ _ _ _ _ (service_block_missing name o k _ Hk)).
    repeat rewrite <- app_assoc. reflexivity.
Qed.

(** C6. For a service entry whose [dns_name] and [url] are strings and
    whose [internal_port] is an integer, in a document that prints in
    full, the report holds the block of that entry with the two strings
    as they are, character for character, and the port as its decimal
    numeral, which reads back as the same integer. *)
Theorem block_values_verbatim d p h b svcs name o dns_name internal_port url out :
  lookup "project_name" d = Some p ->
  lookup "hash" d = Some h ->
  lookup "base_domain" d = Some b ->
  lookup "services" d = Some (VDict svcs) ->
  forallb complete svcs = true ->
  In (name, VDict o) svcs ->
  lookup "dns_name" o = Some (VStr dns_name) ->
  lookup "internal_port" o = Some (VInt internal_port) ->
  lookup "url" o = Some (VStr url) ->
  (exists before after,
     main_body (VDict d) out
     = (Ok tt, out +++ before +++
                 [ "  " ++ name ++ ":";
                   "    DNS:  " ++ dns_name;
                   "    Port: " ++ int_str internal_port;
                   "    URL:  " ++ url;
                   "" ] +++ after)) /\
  option_map Z.of_int (NilZero.int_of_string (int_str internal_port))
  = Some internal_port.
Proof.
  intros Hp Hh Hb Hs Hc Hin Ea Eb Ec. split; [|apply int_str_round_trip].
  exact (main_body_contains_block _ _ _ _ _ _ _ _ _ _ out Hp Hh Hb Hs Hc Hin Ea Eb Ec).
Qed.

(** C7. The result of a run and the text it writes are determined by the
    text on the standard input alone: whatever the standard output held
    before, the run appends the same lines, hence the same bytes, to it.
    Nor do they depend on the order in which a container holds its keys:
    a document whose top-level keys, or whose service names, come in
    another order gives the same run. *)
Theorem main_deterministic stdin :
  (exists r emitted, forall out,
     main stdin out = (r, out +++ emitted) /\
     render (snd (main stdin out)) = render out ++ render emitted) /\
  (forall d d' out,
     nodupb (keys d) = true -> Permutation d d' ->
     main_body (VDict d') out = main_body (VDict d) out) /\
  (forall d svcs svcs' out,
     nodupb (keys svcs) = true -> Permutation svcs svcs' ->
     main_body (VDict (("services", VDict svcs') :: d)) out
     = main_body (VDict (("services", VDict svcs) :: d)) out).
Proof.
  repeat split.
  - destruct (appends_main stdin) as [r [emitted H]].
    exists r, emitted. intros out. rewrite H. split; [reflexivity|].
    apply render_app.
  - intros d d' out Hnd Hperm. apply nodupb_NoDup in Hnd. symmetry.
    apply main_body_agree; now apply lookup_perm.
  - intros d svcs svcs' out Hnd Hperm. apply nodupb_NoDup in Hnd. symmetry.
    apply (main_body_services_perm _ _ svcs svcs'); try reflexivity; assumption.
Qed.

(** C8. On a document that holds its three identity keys and whose
    [services] key holds [null], [false], [0], the empty string or the
    empty array, the run succeeds and prints the header followed by
    [No services configured.], as it does when the key is absent. *)
Theorem falsy_services_report d p h b v out :
  lookup "project_name" d = Some p ->
  lookup "hash" d = Some h ->
  lookup "base_domain" d = Some b ->
  lookup "services" d = Some v ->
  In v [VNull; VBool false; VInt 0; VStr ""; VList []] ->
  main_body (VDict d) out
  = (Ok tt, out +++ [ "Project: " ++ py_str p; "Hash: " ++ py_str h;
                      "Domain: " ++ py_str b; "";
                      "No services configured." ]).
Proof.
  intros Hp Hh Hb Hs Hv. rewrite (main_body_header _ _ _ _ _ Hp Hh Hb).
  rewrite (services_part_falsy d v).
  - unfold header_lines. now rewrite <- app_assoc.
  - unfold py_get. now rewrite Hs.
  - simpl in Hv. destruct Hv as [<-|[<-|[<-|[<-|[<-|[]]]]]]; reflexivity.
Qed.

(** C9. Two top-level objects that agree on [project_name], [hash],
    [base_domain] and [services], each key either absent from both or
    holding the same value in both, give the same run, whatever other
    keys either of them holds. *)
Theorem extra_keys_ignored d d' out :
  lookup "project_name" d = lookup "project_name" d' ->
  lookup "hash" d = lookup "hash" d' ->
  lookup "base_domain" d = lookup "base_domain" d' ->
  lookup "services" d = lookup "services" d' ->
  main_body (VDict d) out = main_body (VDict d') out.
Proof. apply main_body_agree. Qed.

(** C10. The sub-fields of a service entry are printed whatever their
    type: in a document that holds its identity keys and whose entries
    all carry the three sub-fields, the run succeeds, and the block of
    each entry holds [str] of each of its three values; in particular a
    port given as a string is printed as that string and a port given as
    a float as the [repr] of that float. *)
Theorem sub_fields_not_type_checked d p h b svcs name o dns_name internal_port url out :
  lookup "project_name" d = Some p ->
  lookup "hash" d = Some h ->
  lookup "base_domain" d = Some b ->
  lookup "services" d = Some (VDict svcs) ->
  forallb complete svcs = true ->
  In (name, VDict o) svcs ->
  lookup "dns_name" o = Some dns_name ->
  lookup "internal_port" o = Some internal_port ->
  lookup "url" o = Some url ->
  (exists before after,
     main_body (VDict d) out
     = (Ok tt, out +++ before +++
                 [ "  " ++ name ++ ":";
                   "    DNS:  " ++ py_str dns_name;
                   "    Port: " ++ py_str internal_port;
                   "    URL:  " ++ py_str url;
                   "" ] +++ after)) /\
  (forall s, py_str (VStr s) = s) /\
  (forall f, py_str (VFloat f) = float_repr f).
Proof.
  intros Hp Hh Hb Hs Hc Hin Ea Eb Ec. repeat split.
  exact (main_body_contains_block _ _ _ _ _ _ _ _ _ _ out Hp Hh Hb Hs Hc Hin Ea Eb Ec).
Qed.

(** ** Further properties of [main] *)

Lemma not_all_complete (l : list (string * value)) :
  forallb complete l = false -> existsb incomplete l = true.
Proof.
  induction l as [|x l IH]; simpl; [discriminate|].
  unfold incomplete at 1. destruct (complete x); simpl; auto.
Qed.

Lemma appends_services_part (context : value) : appends (services_part context).
Proof.
  unfold services_part. appends_steps.
  destruct (negb (truthy _)); appends_steps.
  apply appends_for_each, appends_service_block.
Qed.

Lemma services_part_succeeds_iff d out :
  fst (services_part (VDict d) out) = Ok tt
  <-> services_ok (lookup "services" d) = true.
Proof.
  unfold services_part, py_get, services_ok.
  destruct (lookup "services" d) as [v|]; [|split; reflexivity].
  cbv [bind lift]. destruct (truthy v) eqn:Ht; [|split; reflexivity].
  cbv [negb print py_items].
  destruct v as [| | | | | |svcs]; try (split; discriminate).
  destruct (forallb complete svcs) eqn:Hc.
  - rewrite for_each_complete by now apply complete_sorted. split; reflexivity.
  - assert (Hex : existsb incomplete (sorted svcs) = true).
    { apply not_all_complete.
      destruct (forallb complete (sorted svcs)) eqn:E; [|reflexivity].
      rewrite <- Hc. symmetry. rewrite forallb_forall in *. intros x Hx.
      apply E. eapply Permutation_in; [apply sorted_perm | exact Hx]. }
    destruct (for_each_incomplete _ (out ++ ["Services:"])%list Hex) as [e [out' He]].
    rewrite He. split; discriminate.
Qed.

Lemma main_body_succeeds_iff context out :
  fst (main_body context out) = Ok tt <-> accepts context = true.
Proof.
  destruct context as [| | | | | |d]; try (split; discriminate).
  unfold accepts.
  destruct (lookup "project_name" d) as [p|] eqn:Ep.
  2:{ unfold main_body, py_getitem. rewrite Ep. split; discriminate. }
  destruct (lookup "hash" d) as [h|] eqn:Eh.
  2:{ unfold main_body, py_getitem. rewrite Ep, Eh. split; discriminate. }
  destruct (lookup "base_domain" d) as [b|] eqn:Eb.
  2:{ unfold main_body, py_getitem. rewrite Ep, Eh, Eb. split; discriminate. }
  rewrite (main_body_header _ _ _ _ _ Ep Eh Eb). apply services_part_succeeds_iff.
Qed.

(** X1. A run ends normally exactly when the standard input decodes to
    an object that holds the three identity keys and whose [services]
    key is absent, holds a falsy value, or holds a mapping whose entries
    are all objects with the three sub-fields; on every other input it
    raises. *)
Theorem main_succeeds_iff stdin out :
  fst (main stdin out) = Ok tt
  <-> match json_load stdin with
      | Some context => accepts context = true
      | None => False
      end.
Proof.
  unfold main. destruct (json_load stdin) as [context|].
  - change (fst (main_body context out) = Ok tt <-> accepts context = true).
    apply main_body_succeeds_iff.
  - split; [discriminate | tauto].
Qed.

(** X2. When [services] holds a truthy value that is not a mapping (a
    non-zero number, [true], a non-empty string or array), the run prints
    the header and the line [Services:] and then raises
    [AttributeError], from [.items()]. *)
Theorem truthy_non_mapping_services_raise d p h b v out :
  lookup "project_name" d = Some p ->
  lookup "hash" d = Some h ->
  lookup "base_domain" d = Some b ->
  lookup "services" d = Some v ->
  truthy v = true ->
  is_object v = false ->
  main_body (VDict d) out
  = (Raise AttributeError, out +++ header_lines p h b +++ ["Services:"]).
Proof.
  intros Hp Hh Hb Hs Ht Hobj. rewrite (main_body_header _ _ _ _ _ Hp Hh Hb).
  unfold services_part, py_get. rewrite Hs. cbv [bind lift]. rewrite Ht.
  cbv [negb print py_items].
  destruct v; try discriminate; now rewrite <- app_assoc.
Qed.

(** X3. When the first entry, in name order, that is not an object with
    its three sub-fields is not an object at all, the run raises
    [TypeError] right after that entry's name line: the blocks of the
    entries before it are printed in full and nothing of those after
    it. *)
Theorem non_object_entry_raises d p h b svcs good name svc rest out :
  lookup "project_name" d = Some p ->
  lookup "hash" d = Some h ->
  lookup "base_domain" d = Some b ->
  lookup "services" d = Some (VDict svcs) ->
  sorted svcs = (good ++ (name, svc) :: rest)%list ->
  forallb complete good = true ->
  is_object svc = false ->
  main_body (VDict d) out
  = (Raise TypeError,
     out +++ header_lines p h b +++ "Services:"
         :: flat_map block_lines good +++ ["  " ++ name ++ ":"]).
Proof.
  intros Hp Hh Hb Hs E Hg Hobj.
  assert (Hne : svcs <> []).
  { intros ->. destruct good; discriminate E. }
  rewrite (main_body_header _ _ _ _ _ Hp Hh Hb), (services_part_items _ _ _ Hs Hne).
  rewrite E, for_each_app by assumption. simpl.
  rewrite (bind_raise _ _ _ _ _ (service_block_not_object name svc _ Hobj)).
  repeat rewrite <- app_assoc. reflexivity.
Qed.

Lemma service_block_KeyError item out k out' :
  service_block item out = (Raise (KeyError k), out') ->
  In k ["dns_name"; "internal_port"; "url"].
Proof.
  destruct item as [name svc]. destruct (complete (name, svc)) eqn:Hc.
  - rewrite (service_block_lines _ out Hc). discriminate.
  - destruct (is_object svc) eqn:Hobj.
    + destruct svc as [| | | | | |o]; try discriminate.
      destruct (first_missing_incomplete _ _ Hc) as [k' Hk'].
      rewrite (service_block_missing _ _ _ _ Hk'). intros [= <- _].
      now apply (first_missing_spec o).
    + rewrite (service_block_not_object _ _ _ Hobj). discriminate.
Qed.

Lemma for_each_KeyError items out k out' :
  for_each items service_block out = (Raise (KeyError k), out') ->
  In k ["dns_name"; "internal_port"; "url"].
Proof.
  revert out. induction items as [|x items IH]; intros out; simpl.
  - discriminate.
  - unfold bind. destruct (service_block x out) as [[[]|e] o] eqn:E.
    + apply IH.
    + intros [= -> <-]. exact (service_block_KeyError _ _ _ _ E).
Qed.

(** X4. Whatever the input, a [KeyError] that a run raises names one of
    the six keys the command subscripts with: never a service name, nor
    [services], nor any other key of the document. *)
Theorem key_error_names_a_schema_field stdin out k out' :
  main stdin out = (Raise (KeyError k), out') ->
  In k subscripted_keys.
Proof.
  unfold main, subscripted_keys.
  destruct (json_load stdin) as [context|]; [|discriminate].
  change (main_body context out = (Raise (KeyError k), out') ->
          In k ["project_name"; "hash"; "base_domain";
                "dns_name"; "internal_port"; "url"]).
  destruct context as [| | | | | |d]; try discriminate.
  destruct (lookup "project_name" d) as [p|] eqn:Ep.
  2:{ unfold main_body, py_getitem. rewrite Ep. intros [= <- _]. simpl. auto. }
  destruct (lookup "hash" d) as [h|] eqn:Eh.
  2:{ unfold main_body, py_getitem. rewrite Ep, Eh. intros [= <- _]. simpl. auto. }
  destruct (lookup "base_domain" d) as [b|] eqn:Eb.
  2:{ unfold main_body, py_getitem. rewrite Ep, Eh, Eb. intros [= <- _].
      simpl. auto. }
  rewrite (main_body_header _ _ _ _ _ Ep Eh Eb).
  unfold services_part, py_get.
  destruct (lookup "services" d) as [v|]; [|discriminate].
  cbv [bind lift]. destruct (truthy v); [|discriminate].
  cbv [negb print py_items].
  destruct v as [| | | | | |svcs]; try discriminate.
  intros H. apply for_each_KeyError in H. simpl in *. tauto.
Qed.

(** X5. Once the three identity keys are there, the four header lines
    are the first thing a run adds to the standard output, whatever
    [services] holds and however the run ends. *)
Theorem header_always_first d p h b out :
  lookup "project_name" d = Some p ->
  lookup "hash" d = Some h ->
  lookup "base_domain" d = Some b ->
  exists r rest,
    main_body (VDict d) out = (r, out +++ header_lines p h b +++ rest).
Proof.
  intros Hp Hh Hb. rewrite (main_body_header _ _ _ _ _ Hp Hh Hb).
  destruct (appends_services_part (VDict d)) as [r [rest H]].
  exists r, rest. now rewrite H, <- app_assoc.
Qed.

Lemma block_lines_length (l : list (string * value)) :
  forallb complete l = true ->
  List.length (flat_map block_lines l) = 5 * List.length l.
Proof.
  induction l as [|x l IH]; simpl; [reflexivity|].
  rewrite andb_true_iff. intros [Hx Hl].
  rewrite length_app, (IH Hl). unfold block_lines, complete in *.
  destruct (fields_of (snd x)) as [[[a b] c]|]; [|discriminate].
  simpl. rewrite <- !plus_n_Sm, <- !plus_n_O. reflexivity.
Qed.

(** A run that prints a mapping of [n] services in full calls [print]
    [5 + 5 * n] times: five times for the header and what follows it,
    five times for each service. *)
Lemma report_line_count d p h b svcs out :
  lookup "project_name" d = Some p ->
  lookup "hash" d = Some h ->
  lookup "base_domain" d = Some b ->
  lookup "services" d = Some (VDict svcs) ->
  forallb complete svcs = true ->
  exists emitted,
    main_body (VDict d) out = (Ok tt, out +++ emitted) /\
    List.length emitted = 5 + 5 * List.length svcs.
Proof.
  intros Hp Hh Hb Hs Hc. destruct svcs as [|x svcs'] eqn:E.
  - exists (header_lines p h b ++ ["No services configured."])%list.
    split; [|reflexivity].
    rewrite (main_body_header _ _ _ _ _ Hp Hh Hb).
    rewrite (services_part_falsy d (VDict [])); try reflexivity.
    + now rewrite <- app_assoc.
    + unfold py_get. now rewrite Hs.
  - rewrite <- E in *.
    assert (Hne : svcs <> []) by (rewrite E; discriminate).
    exists (header_lines p h b ++ "Services:" :: flat_map block_lines (sorted svcs))%list.
    split; [now apply main_body_complete|].
    rewrite length_app. simpl.
    rewrite block_lines_length by now apply complete_sorted.
    now rewrite <- (Permutation_length (sorted_perm svcs)).
Qed.

Lemma skipn_length_app {A} (l1 l2 : list A) : skipn (List.length l1) (l1 ++ l2)%list = l2.
Proof. induction l1 as [|x l1 IH]; simpl; [reflexivity | exact IH]. Qed.

Lemma firstn_length_app {A} (l1 l2 : list A) : firstn (List.length l1) (l1 ++ l2)%list = l1.
Proof. induction l1 as [|x l1 IH]; simpl; [reflexivity | now rewrite IH]. Qed.

(** In a report printed in full, the block of the service that comes
    [i]-th in name order, counting from zero, is made by the five calls
    of [print] that follow the first [5 + 5 * i]. *)
Lemma block_position d p h b svcs i name svc dns_name internal_port url out :
  lookup "project_name" d = Some p ->
  lookup "hash" d = Some h ->
  lookup "base_domain" d = Some b ->
  lookup "services" d = Some (VDict svcs) ->
  forallb complete svcs = true ->
  nth_error (sorted svcs) i = Some (name, svc) ->
  fields_of svc = Some (dns_name, internal_port, url) ->
  exists emitted,
    main_body (VDict d) out = (Ok tt, out +++ emitted) /\
    firstn 5 (skipn (5 + 5 * i) emitted)
    = [ "  " ++ name ++ ":";
        "    DNS:  " ++ py_str dns_name;
        "    Port: " ++ py_str internal_port;
        "    URL:  " ++ py_str url;
        "" ].
Proof.
  intros Hp Hh Hb Hs Hc Hnth Hf.
  assert (Hne : svcs <> []).
  { intros ->. destruct i; discriminate Hnth. }
  exists (header_lines p h b ++ "Services:" :: flat_map block_lines (sorted svcs))%list.
  split; [now apply main_body_complete|].
  destruct (nth_error_split _ _ Hnth) as [l1 [l2 [E Hlen]]].
  assert (Hc1 : forallb complete l1 = true).
  { pose proof (complete_sorted _ Hc) as H. rewrite E, forallb_app in H.
    now apply andb_true_iff in H. }
  rewrite E, flat_map_app. simpl flat_map.
  rewrite (block_lines_complete _ _ _ _ _ Hf).
  change (header_lines p h b ++ "Services:"
            :: flat_map block_lines l1
               ++ block_of name dns_name internal_port url
               ++ flat_map block_lines l2)%list
    with ((header_lines p h b ++ "Services:" :: flat_map block_lines l1)
            ++ block_of name dns_name internal_port url
            ++ flat_map block_lines l2)%list.
  assert (Hpre : List.length (header_lines p h b ++ "Services:"
                           :: flat_map block_lines l1)%list = 5 + 5 * i).
  { rewrite length_app. simpl. rewrite (block_lines_length _ Hc1), Hlen. reflexivity. }
  rewrite <- Hpre, skipn_length_app.
  exact (firstn_length_app (block_of name dns_name internal_port url) _).
Qed.

Lemma fields_of_essence (item : string * value) :
  fields_of (snd (essence item)) = fields_of (snd item).
Proof.
  unfold essence. destruct (fields_of (snd item)) as [[[a b] c]|] eqn:E;
    [reflexivity | exact E].
Qed.

Lemma fst_essence (item : string * value) : fst (essence item) = fst item.
Proof.
  unfold essence. now destruct (fields_of (snd item)) as [[[a b] c]|].
Qed.

Lemma block_lines_essence (item : string * value) :
  block_lines (essence item) = block_lines item.
Proof. unfold block_lines. now rewrite fields_of_essence, fst_essence. Qed.

Lemma same_block_essence (a b : string * value) :
  same_block a b -> complete a = true -> essence a = essence b.
Proof.
  destruct a as [n x], b as [n' y]. unfold same_block, complete, essence. simpl.
  intros [-> <-]. now destruct (fields_of x) as [[[u v] w]|].
Qed.

Lemma keys_essence (l : list (string * value)) : keys (map essence l) = keys l.
Proof.
  unfold keys. rewrite map_map. apply map_ext. intros x. apply fst_essence.
Qed.

Lemma strict_sorted_essence (l : list (string * value)) :
  StronglySorted name_lt l -> StronglySorted name_lt (map essence l).
Proof.
  induction 1 as [|a l Hs IH Ha]; simpl; constructor; [exact IH|].
  rewrite Forall_forall in *. intros y Hy.
  apply in_map_iff in Hy. destruct Hy as [x [<- Hx]].
  unfold name_lt. rewrite !fst_essence. exact (Ha x Hx).
Qed.

Lemma sorted_essence (l : list (string * value)) :
  NoDup (keys l) -> map essence (sorted l) = sorted (map essence l).
Proof.
  intros Hnd. apply strict_sorted_unique.
  - now apply strict_sorted_essence, sorted_strict.
  - apply sorted_strict. now rewrite keys_essence.
  - rewrite <- (sorted_perm (map essence l)).
    apply Permutation_map. symmetry. apply sorted_perm.
Qed.

Lemma flat_map_block_lines_essence (l : list (string * value)) :
  flat_map block_lines (map essence l) = flat_map block_lines l.
Proof.
  induction l as [|x l IH]; simpl; [reflexivity|].
  now rewrite block_lines_essence, IH.
Qed.

Lemma same_block_map_essence (l l' : list (string * value)) :
  Forall2 same_block l l' -> forallb complete l = true ->
  map essence l = map essence l' /\ forallb complete l' = true /\ keys l = keys l'.
Proof.
  induction 1 as [|a b l l' Hab Hl IH]; simpl; [auto|].
  rewrite andb_true_iff. intros [Ha Hc]. destruct (IH Hc) as [E [Hc' Hk]].
  rewrite (same_block_essence _ _ Hab Ha), E. repeat split.
  - apply andb_true_iff. split; [|exact Hc'].
    destruct Hab as [_ Hf]. unfold complete in *. now rewrite <- Hf.
  - destruct Hab as [Hn _]. now rewrite Hn, Hk.
Qed.

(** X8. A service entry counts only through its name and its three
    sub-fields: two documents with the same identity values whose
    [services] list, name by name, entries that hold the same
    [dns_name], [internal_port] and [url], give the same run, whatever
    other keys the entries hold and in whatever order they hold them. *)
Theorem entry_extras_ignored d d' p h b svcs svcs' out :
  lookup "project_name" d = Some p -> lookup "project_name" d' = Some p ->
  lookup "hash" d = Some h -> lookup "hash" d' = Some h ->
  lookup "base_domain" d = Some b -> lookup "base_domain" d' = Some b ->
  lookup "services" d = Some (VDict svcs) ->
  lookup "services" d' = Some (VDict svcs') ->
  nodupb (keys svcs) = true ->
  forallb complete svcs = true ->
  Forall2 same_block svcs svcs' ->
  main_body (VDict d) out = main_body (VDict d') out.
Proof.
  intros Hp Hp' Hh Hh' Hb Hb' Hs Hs' Hnd Hc Hsame.
  apply nodupb_NoDup in Hnd.
  destruct (same_block_map_essence _ _ Hsame Hc) as [E [Hc' Hk]].
  destruct svcs as [|x l] eqn:Ex.
  - inversion Hsame; subst.
    rewrite (main_body_header _ _ _ _ _ Hp Hh Hb), (main_body_header _ _ _ _ _ Hp' Hh' Hb').
    rewrite (services_part_falsy d (VDict [])), (services_part_falsy d' (VDict []));
      try reflexivity; unfold py_get; [now rewrite Hs' | now rewrite Hs].
  - rewrite <- Ex in *.
    assert (Hne : svcs <> []) by (rewrite Ex; discriminate).
    assert (Hne' : svcs' <> []).
    { intros ->. rewrite Ex in Hsame. inversion Hsame. }
    rewrite (main_body_complete _ _ _ _ _ _ Hp Hh Hb Hs Hne Hc).
    rewrite (main_body_complete _ _ _ _ _ _ Hp' Hh' Hb' Hs' Hne' Hc').
    rewrite <- (flat_map_block_lines_essence (sorted svcs)).
    rewrite <- (flat_map_block_lines_essence (sorted svcs')).
    rewrite !sorted_essence, E; [reflexivity | now rewrite <- Hk | exact Hnd].
Qed.

(** ** Lines of text *)

Lemma newline_free_app (a b : string) :
  newline_free (a ++ b) = newline_free a && newline_free b.
Proof.
  induction a as [|c a IH]; simpl; [reflexivity|].
  now rewrite IH, andb_assoc.
Qed.

Lemma split_lines_line (line rest : string) :
  newline_free line = true ->
  split_lines (line ++ newline ++ rest) = line :: split_lines rest.
Proof.
  induction line as [|c line IH]; [reflexivity|].
  cbn [newline_free]. rewrite andb_true_iff, negb_true_iff. intros [Hc Hl].
  change (String c line ++ newline ++ rest)
    with (String c (line ++ newline ++ rest)).
  cbn [split_lines]. now rewrite Hc, (IH Hl).
Qed.

(** Splitting what [render] writes gives back the printed lines, when
    none of them holds a newline. *)
Lemma split_lines_render (out : stdout) :
  forallb newline_free out = true -> split_lines (render out) = out.
Proof.
  induction out as [|line out IH]; [reflexivity|].
  cbn [render forallb]. rewrite andb_true_iff. intros [Hl Ho].
  now rewrite (split_lines_line _ _ Hl), (IH Ho).
Qed.

Lemma block_lines_newline_free (item : string * value) :
  newline_free_item item = true -> forallb newline_free (block_lines item) = true.
Proof.
  unfold newline_free_item, block_lines, block_of.
  rewrite andb_true_iff. intros [Hn Hf].
  destruct (fields_of (snd item)) as [[[a b] c]|]; [|reflexivity].
  apply andb_true_iff in Hf. destruct Hf as [Hab Hc].
  apply andb_true_iff in Hab. destruct Hab as [Ha Hb].
  cbn [forallb]. rewrite !newline_free_app, Hn. simpl. now rewrite Ha, Hb, Hc.
Qed.

Lemma flat_map_newline_free (l : list (string * value)) :
  forallb newline_free_item l = true ->
  forallb newline_free (flat_map block_lines l) = true.
Proof.
  induction l as [|x l IH]; simpl; [reflexivity|].
  rewrite andb_true_iff. intros [Hx Hl].
  now rewrite forallb_app, (block_lines_newline_free _ Hx), (IH Hl).
Qed.

Lemma newline_free_sorted svcs :
  forallb newline_free_item svcs = true ->
  forallb newline_free_item (sorted svcs) = true.
Proof.
  rewrite !forallb_forall. intros H x Hx. apply H.
  eapply Permutation_in; [symmetry; apply sorted_perm | exact Hx].
Qed.

Lemma full_report_newline_free d p h b svcs out :
  lookup "project_name" d = Some p ->
  lookup "hash" d = Some h ->
  lookup "base_domain" d = Some b ->
  lookup "services" d = Some (VDict svcs) ->
  forallb complete svcs = true ->
  newline_free (py_str p) = true ->
  newline_free (py_str h) = true ->
  newline_free (py_str b) = true ->
  forallb newline_free_item svcs = true ->
  exists emitted,
    main_body (VDict d) out = (Ok tt, out +++ emitted) /\
    forallb newline_free emitted = true.
Proof.
  intros Hp Hh Hb Hs Hc Np Nh Nb Ns. destruct svcs as [|x svcs'] eqn:E.
  - exists (header_lines p h b ++ ["No services configured."])%list. split.
    + rewrite (main_body_header _ _ _ _ _ Hp Hh Hb).
      rewrite (services_part_falsy d (VDict [])); try reflexivity.
      * now rewrite <- app_assoc.
      * unfold py_get. now rewrite Hs.
    + simpl. now rewrite Np, Nh, Nb.
  - rewrite <- E in *.
    assert (Hne : svcs <> []) by (rewrite E; discriminate).
    exists (header_lines p h b ++ "Services:" :: flat_map block_lines (sorted svcs))%list.
    split; [now apply main_body_complete|].
    rewrite forallb_app. simpl. rewrite Np, Nh, Nb. simpl.
    now apply flat_map_newline_free, newline_free_sorted.
Qed.

Lemma same_emitted (out e1 e2 : stdout) (r1 r2 : result unit) :
  (r1, out +++ e1) = (r2, out +++ e2) -> e1 = e2.
Proof. intros [= _ H]. now apply app_inv_head in H. Qed.

(** X6. When no service name and none of the printed values holds a
    newline, the text that a run writes when it prints a mapping of [n]
    services in full has exactly [5 + 5 * n] lines: five for the header
    and what follows it, five for each service; with no service those
    are the five lines ending in [No services configured.] *)
Theorem report_text_line_count d p h b svcs out :
  lookup "project_name" d = Some p ->
  lookup "hash" d = Some h ->
  lookup "base_domain" d = Some b ->
  lookup "services" d = Some (VDict svcs) ->
  forallb complete svcs = true ->
  newline_free (py_str p) = true ->
  newline_free (py_str h) = true ->
  newline_free (py_str b) = true ->
  forallb newline_free_item svcs = true ->
  exists emitted,
    main_body (VDict d) out = (Ok tt, out +++ emitted) /\
    List.length (split_lines (render emitted)) = 5 + 5 * List.length svcs.
Proof.
  intros Hp Hh Hb Hs Hc Np Nh Nb Ns.
  destruct (full_report_newline_free _ _ _ _ _ out Hp Hh Hb Hs Hc Np Nh Nb Ns)
    as [emitted [Hrun Hfree]].
  destruct (report_line_count _ _ _ _ _ out Hp Hh Hb Hs Hc) as [emitted' [Hrun' Hlen]].
  rewrite Hrun in Hrun'. apply same_emitted in Hrun'. subst emitted'.
  exists emitted. split; [exact Hrun|].
  now rewrite (split_lines_render _ Hfree).
Qed.

(** X7. When no service name and none of the printed values holds a
    newline, then in the text of a report printed in full the block of
    the service that comes [i]-th in name order, counting from zero, is
    the five lines that follow the first [5 + 5 * i] lines. *)
Theorem block_text_position d p h b svcs i name svc dns_name internal_port url out :
  lookup "project_name" d = Some p ->
  lookup "hash" d = Some h ->
  lookup "base_domain" d = Some b ->
  lookup "services" d = Some (VDict svcs) ->
  forallb complete svcs = true ->
  newline_free (py_str p) = true ->
  newline_free (py_str h) = true ->
  newline_free (py_str b) = true ->
  forallb newline_free_item svcs = true ->
  nth_error (sorted svcs) i = Some (name, svc) ->
  fields_of svc = Some (dns_name, internal_port, url) ->
  exists emitted,
    main_body (VDict d) out = (Ok tt, out +++ emitted) /\
    firstn 5 (skipn (5 + 5 * i) (split_lines (render emitted)))
    = [ "  " ++ name ++ ":";
        "    DNS:  " ++ py_str dns_name;
        "    Port: " ++ py_str internal_port;
        "    URL:  " ++ py_str url;
        "" ].
Proof.
  intros Hp Hh Hb Hs Hc Np Nh Nb Ns Hnth Hf.
  destruct (full_report_newline_free _ _ _ _ _ out Hp Hh Hb Hs Hc Np Nh Nb Ns)
    as [emitted [Hrun Hfree]].
  destruct (block_position _ _ _ _ _ _ _ _ _ _ _ out Hp Hh Hb Hs Hc Hnth Hf)
    as [emitted' [Hrun' Hblock]].
  rewrite Hrun in Hrun'. apply same_emitted in Hrun'. subst emitted'.
  exists emitted. split; [exact Hrun|].
  now rewrite (split_lines_render _ Hfree).
Qed.

End Command.

(** ** The decoder *)

Module JsonFacts.
Import Json.

(** *** The decoder consumes what it reads and never runs out of fuel *)

Lemma skip_ws_length (s : string) : String.length (skip_ws s) <= String.length s.
Proof.
  induction s as [|c s IH]; simpl; [lia|].
  destruct (is_ws c); simpl; lia.
Qed.

Lemma strip_prefix_length (p s r : string) :
  strip_prefix p s = Some r -> String.length s = String.length p + String.length r.
Proof.
  revert s. induction p as [|a p IH]; intros [|b s]; simpl; try discriminate.
  - now intros [= <-].
  - now intros [= <-].
  - destruct (Ascii.eqb a b); [|discriminate]. intros H. now rewrite (IH _ H).
Qed.

Lemma span_digits_length (s ds r : string) :
  span_digits s = (ds, r) -> String.length s = String.length ds + String.length r.
Proof.
  revert ds r. induction s as [|c s IH]; simpl; intros ds r.
  - now intros [= <- <-].
  - destruct (is_digit c).
    + destruct (span_digits s) as [ds' r'] eqn:E. intros [= <- <-].
      simpl. now rewrite (IH _ _ eq_refl).
    + now intros [= <- <-].
Qed.

Lemma sign_part_length (s : string) :
  String.length (snd (sign_part s)) <= String.length s.
Proof.
  destruct s as [|c r]; simpl; [lia|]. destruct (Ascii.eqb c "-"); simpl; lia.
Qed.

Lemma int_part_length (s ds r : string) :
  int_part s = Some (ds, r) -> String.length r < String.length s.
Proof.
  destruct s as [|c s']; simpl; [discriminate|].
  destruct (is_digit c) eqn:Hd; [|discriminate].
  destruct (Ascii.eqb c "0").
  - intros [= <- <-]. lia.
  - destruct (span_digits s') as [ds' r'] eqn:E. intros [= <- <-].
    apply span_digits_length in E. lia.
Qed.

Lemma frac_part_length (s : string) :
  String.length (snd (frac_part s)) <= String.length s.
Proof.
  destruct s as [|dot [|d r]]; simpl; try lia.
  destruct (Ascii.eqb dot "." && is_digit d) eqn:E; simpl; [|lia].
  apply andb_true_iff in E. destruct E as [_ Hd]. rewrite Hd.
  destruct (span_digits r) as [ds' r'] eqn:E. apply span_digits_length in E.
  simpl. lia.
Qed.

Lemma exp_sign_length (s : string) :
  String.length (snd (exp_sign s)) <= String.length s.
Proof.
  destruct s as [|c r]; simpl; [lia|].
  destruct (Ascii.eqb c "-"); simpl; [lia|].
  destruct (Ascii.eqb c "+"); simpl; lia.
Qed.

Lemma exp_part_length (s : string) :
  String.length (snd (exp_part s)) <= String.length s.
Proof.
  destruct s as [|e r]; simpl; [lia|].
  destruct (Ascii.eqb e "e" || Ascii.eqb e "E"); simpl; [|lia].
  pose proof (exp_sign_length r) as H.
  destruct (exp_sign r) as [exp_negative r']. simpl in H.
  destruct (span_digits r') as [[|a ds] rest] eqn:E; simpl; [lia|].
  apply span_digits_length in E. lia.
Qed.

Lemma match_number_shorter (s : string) (v : value) (r : string) :
  match_number s = Parsed v r -> String.length r < String.length s.
Proof.
  unfold match_number.
  pose proof (sign_part_length s) as H1.
  destruct (sign_part s) as [negative s1]. simpl in H1.
  destruct (int_part s1) as [[ds s2]|] eqn:E2; [|discriminate].
  apply int_part_length in E2.
  pose proof (frac_part_length s2) as H3.
  destruct (frac_part s2) as [fs s3]. simpl in H3.
  pose proof (exp_part_length s3) as H4.
  destruct (exp_part s3) as [ex s4]. simpl in H4.
  destruct fs, ex; intros [= _ <-]; lia.
Qed.

Lemma literal_shorter (constants : bool) (s : string) (v : value) (r : string) :
  literal constants s = Some (v, r) -> String.length r < String.length s.
Proof.
  unfold literal.
  repeat match goal with
  | |- context [strip_prefix ?p s] =>
      let E := fresh "E" in
      destruct (strip_prefix p s) eqn:E;
      [apply strip_prefix_length in E; simpl in E; intros [= _ <-]; lia|]
  | |- context [if constants then _ else _] => destruct constants
  end; discriminate.
Qed.

Lemma scanstring_shorter (n : nat) :
  forall s acc x r,
    String.length s <= n -> scanstring s acc = Some (x, r) ->
    String.length r < String.length s.
Proof.
  induction n as [|n IH]; intros s acc x r Hn; destruct s as [|c r0];
    try discriminate; [simpl in Hn; lia|].
  cbn [scanstring]. simpl in Hn.
  destruct (Ascii.eqb c quote); [intros [= _ <-]; simpl; lia|].
  destruct (Ascii.eqb c backslash).
  - destruct r0 as [|e r1]; [discriminate|].
    destruct (Ascii.eqb e "u").
    + destruct r1 as [|h1 [|h2 [|h3 [|h4 r2]]]]; try discriminate.
      destruct (hex4 h1 h2 h3 h4) as [cp|]; [|discriminate].
      destruct (is_high_surrogate cp).
      * destruct r2 as [|b [|u [|l1 [|l2 [|l3 [|l4 r3]]]]]];
          try (intros H; apply IH in H; simpl in *; lia).
        destruct (Ascii.eqb b backslash && Ascii.eqb u "u");
          [destruct (hex4 l1 l2 l3 l4) as [cp2|];
           [destruct (is_low_surrogate cp2)|discriminate]|];
          intros H; apply IH in H; simpl in *; lia.
      * intros H; apply IH in H; simpl in *; lia.
    + destruct (unescape e); [|discriminate].
      intros H; apply IH in H; simpl in *; lia.
  - destruct (N_of_ascii c <=? 31)%N; [discriminate|].
    intros H; apply IH in H; simpl in *; lia.
Qed.

Lemma match_number_fed (s : string) : match_number s <> Starved.
Proof.
  unfold match_number. destruct (sign_part s) as [negative s1].
  destruct (int_part s1) as [[ds s2]|]; [|discriminate].
  destruct (frac_part s2) as [fs s3]. destruct (exp_part s3) as [ex s4].
  destruct fs, ex; discriminate.
Qed.

Section ScannerFacts.
Variable constants : bool.

Lemma scan_once_S fuel s :
  scan_once constants (S fuel) s =
  match s with
  | EmptyString => Failed
  | String c r =>
      if Ascii.eqb c quote then
        match scanstring r EmptyString with
        | Some (str, rest) => Parsed (VStr str) rest
        | None => Failed
        end
      else if Ascii.eqb c "{"%char then
        match skip_ws r with
        | String c' r' =>
            if Ascii.eqb c' "}"%char then Parsed (VDict []) r'
            else members constants fuel (String c' r') []
        | EmptyString => Failed
        end
      else if Ascii.eqb c "["%char then
        match skip_ws r with
        | String c' r' =>
            if Ascii.eqb c' "]"%char then Parsed (VList []) r'
            else elements constants fuel (String c' r') []
        | EmptyString => Failed
        end
      else
        match literal constants s with
        | Some (v, rest) => Parsed v rest
        | None => match_number s
        end
  end.
Proof. destruct s; reflexivity. Qed.

Lemma elements_S fuel s seen :
  elements constants (S fuel) s seen =
  match scan_once constants fuel s with
  | Parsed v r =>
      match skip_ws r with
      | String c r' =>
          if Ascii.eqb c "]"%char then Parsed (VList (rev (v :: seen))) r'
          else if Ascii.eqb c ","%char
          then elements constants fuel (skip_ws r') (v :: seen)
          else Failed
      | EmptyString => Failed
      end
  | Failed => Failed
  | Starved => Starved
  end.
Proof. reflexivity. Qed.

Lemma members_S fuel s seen :
  members constants (S fuel) s seen =
  match s with
  | String c r =>
      if Ascii.eqb c quote then
        match scanstring r EmptyString with
        | Some (key, r1) =>
            match skip_ws r1 with
            | String colon r2 =>
                if Ascii.eqb colon ":"%char then
                  match scan_once constants fuel (skip_ws r2) with
                  | Parsed v r3 =>
                      match skip_ws r3 with
                      | String c' r4 =>
                          if Ascii.eqb c' "}"%char
                          then Parsed (VDict (dict_set key v seen)) r4
                          else if Ascii.eqb c' ","%char
                          then members constants fuel (skip_ws r4) (dict_set key v seen)
                          else Failed
                      | EmptyString => Failed
                      end
                  | Failed => Failed
                  | Starved => Starved
                  end
                else Failed
            | EmptyString => Failed
            end
        | None => Failed
        end
      else Failed
  | EmptyString => Failed
  end.
Proof. destruct s; reflexivity. Qed.

Lemma scan_shorter (fuel : nat) :
  (forall s v r, scan_once constants fuel s = Parsed v r ->
                 String.length r < String.length s) /\
  (forall s seen v r, elements constants fuel s seen = Parsed v r ->
                      String.length r < String.length s) /\
  (forall s seen v r, members constants fuel s seen = Parsed v r ->
                      String.length r < String.length s).
Proof.
  induction fuel as [|fuel [IH1 [IH2 IH3]]]; [repeat split; intros; discriminate|].
  repeat split.
  - intros s v r. rewrite scan_once_S. destruct s as [|c s']; [discriminate|].
    destruct (Ascii.eqb c quote).
    { destruct (scanstring s' EmptyString) as [[x rest]|] eqn:E; [|discriminate].
      intros [= _ <-]. apply (scanstring_shorter _ _ _ _ _ (le_n _)) in E. simpl. lia. }
    destruct (Ascii.eqb c "{").
    { pose proof (skip_ws_length s') as Hw.
      destruct (skip_ws s') as [|c' r']; [discriminate|].
      destruct (Ascii.eqb c' "}"); [intros [= _ <-]; simpl in *; lia|].
      intros H. apply IH3 in H. simpl in *. lia. }
    destruct (Ascii.eqb c "[").
    { pose proof (skip_ws_length s') as Hw.
      destruct (skip_ws s') as [|c' r']; [discriminate|].
      destruct (Ascii.eqb c' "]"); [intros [= _ <-]; simpl in *; lia|].
      intros H. apply IH2 in H. simpl in *. lia. }
    destruct (literal constants (String c s')) as [[v' rest]|] eqn:E.
    { intros [= _ <-]. now apply literal_shorter in E. }
    apply match_number_shorter.
  - intros s seen v r. rewrite elements_S.
    destruct (scan_once constants fuel s) as [v' r'| |] eqn:E; try discriminate.
    apply IH1 in E. pose proof (skip_ws_length r') as Hw.
    destruct (skip_ws r') as [|c r'']; [discriminate|].
    destruct (Ascii.eqb c "]"); [intros [= _ <-]; simpl in *; lia|].
    destruct (Ascii.eqb c ","); [|discriminate].
    intros H. apply IH2 in H. pose proof (skip_ws_length r''). simpl in *. lia.
  - intros s seen v r. rewrite members_S. destruct s as [|c s']; [discriminate|].
    destruct (Ascii.eqb c quote); [|discriminate].
    destruct (scanstring s' EmptyString) as [[key r1]|] eqn:E; [|discriminate].
    apply (scanstring_shorter _ _ _ _ _ (le_n _)) in E.
    pose proof (skip_ws_length r1) as Hw1.
    destruct (skip_ws r1) as [|colon r2]; [discriminate|].
    destruct (Ascii.eqb colon ":"); [|discriminate].
    pose proof (skip_ws_length r2) as Hw2.
    destruct (scan_once constants fuel (skip_ws r2)) as [v' r3| |] eqn:E3;
      try discriminate.
    apply IH1 in E3. pose proof (skip_ws_length r3) as Hw3.
    destruct (skip_ws r3) as [|c' r4]; [discriminate|].
    destruct (Ascii.eqb c' "}"); [intros [= _ <-]; simpl in *; lia|].
    destruct (Ascii.eqb c' ","); [|discriminate].
    intros H. apply IH3 in H. pose proof (skip_ws_length r4). simpl in *. lia.
Qed.

Lemma scan_fed (fuel : nat) :
  (forall s, 2 * String.length s + 1 <= fuel ->
             scan_once constants fuel s <> Starved) /\
  (forall s seen, 2 * String.length s + 2 <= fuel ->
                  elements constants fuel s seen <> Starved) /\
  (forall s seen, 2 * String.length s + 2 <= fuel ->
                  members constants fuel s seen <> Starved).
Proof.
  induction fuel as [|fuel [IH1 [IH2 IH3]]]; [repeat split; intros; lia|].
  repeat split.
  - intros s Hf. rewrite scan_once_S. destruct s as [|c s']; [discriminate|].
    simpl in Hf.
    destruct (Ascii.eqb c quote).
    { destruct (scanstring s' EmptyString) as [[x rest]|]; discriminate. }
    destruct (Ascii.eqb c "{").
    { pose proof (skip_ws_length s') as Hw.
      destruct (skip_ws s') as [|c' r']; [discriminate|].
      destruct (Ascii.eqb c' "}"); [discriminate|].
      apply IH3. simpl in *. lia. }
    destruct (Ascii.eqb c "[").
    { pose proof (skip_ws_length s') as Hw.
      destruct (skip_ws s') as [|c' r']; [discriminate|].
      destruct (Ascii.eqb c' "]"); [discriminate|].
      apply IH2. simpl in *. lia. }
    destruct (literal constants (String c s')) as [[v' rest]|]; [discriminate|].
    apply match_number_fed.
  - intros s seen Hf. rewrite elements_S.
    assert (H1 : scan_once constants fuel s <> Starved) by (apply IH1; lia).
    destruct (scan_once constants fuel s) as [v' r'| |] eqn:E;
      [|discriminate|contradiction].
    apply (proj1 (scan_shorter fuel)) in E. pose proof (skip_ws_length r') as Hw.
    destruct (skip_ws r') as [|c r'']; [discriminate|].
    destruct (Ascii.eqb c "]"); [discriminate|].
    destruct (Ascii.eqb c ","); [|discriminate].
    apply IH2. pose proof (skip_ws_length r''). simpl in *. lia.
  - intros s seen Hf. rewrite members_S. destruct s as [|c s']; [discriminate|].
    destruct (Ascii.eqb c quote); [|discriminate].
    destruct (scanstring s' EmptyString) as [[key r1]|] eqn:E; [|discriminate].
    apply (scanstring_shorter _ _ _ _ _ (le_n _)) in E.
    pose proof (skip_ws_length r1) as Hw1.
    destruct (skip_ws r1) as [|colon r2]; [discriminate|].
    destruct (Ascii.eqb colon ":"); [|discriminate].
    pose proof (skip_ws_length r2) as Hw2.
    assert (H1 : scan_once constants fuel (skip_ws r2) <> Starved).
    { apply IH1. simpl in *. lia. }
    destruct (scan_once constants fuel (skip_ws r2)) as [v' r3| |] eqn:E3;
      [|discriminate|contradiction].
    apply (proj1 (scan_shorter fuel)) in E3. pose proof (skip_ws_length r3) as Hw3.
    destruct (skip_ws r3) as [|c' r4]; [discriminate|].
    destruct (Ascii.eqb c' "}"); [discriminate|].
    destruct (Ascii.eqb c' ","); [|discriminate].
    apply IH3. pose proof (skip_ws_length r4). simpl in *. lia.
Qed.

(** The fuel [loads] gives the scanner is never used up: it returns
    [None] only on a text the decoder refuses. *)
Lemma loads_fed (s : string) :
  scan_once constants (2 * String.length s + 1) (skip_ws s) <> Starved.
Proof.
  apply (proj1 (scan_fed _)). pose proof (skip_ws_length s). lia.
Qed.

End ScannerFacts.

(** *** Refusing the constants only refuses texts *)

Lemma literal_strict (s : string) (x : value * string) :
  literal false s = Some x -> literal true s = Some x.
Proof.
  unfold literal.
  destruct (strip_prefix "null" s); [trivial|].
  destruct (strip_prefix "true" s); [trivial|].
  destruct (strip_prefix "false" s); [trivial | discriminate].
Qed.

Lemma number_is_no_constant (s : string) (v : value) (r : string) :
  literal false s = None -> match_number s = Parsed v r -> literal true s = None.
Proof.
  unfold literal.
  destruct (strip_prefix "null" s); [discriminate|].
  destruct (strip_prefix "true" s); [discriminate|].
  destruct (strip_prefix "false" s); [discriminate|]. intros _.
  destruct s as [|c s']; [reflexivity|].
  cbn [strip_prefix].
  destruct (Ascii.eqb_spec "N" c) as [<-|_]; [discriminate|].
  destruct (Ascii.eqb_spec "I" c) as [<-|_]; [discriminate|].
  destruct (Ascii.eqb_spec "-" c) as [<-|_]; [|reflexivity].
  destruct s' as [|c2 s'']; [reflexivity|].
  destruct (Ascii.eqb_spec "I" c2) as [<-|_]; [discriminate | reflexivity].
Qed.

Lemma scan_strict (fuel : nat) :
  (forall s v r, scan_once false fuel s = Parsed v r ->
                 scan_once true fuel s = Parsed v r) /\
  (forall s seen v r, elements false fuel s seen = Parsed v r ->
                      elements true fuel s seen = Parsed v r) /\
  (forall s seen v r, members false fuel s seen = Parsed v r ->
                      members true fuel s seen = Parsed v r).
Proof.
  induction fuel as [|fuel [IH1 [IH2 IH3]]]; [repeat split; intros; discriminate|].
  repeat split.
  - intros s v r. rewrite !scan_once_S. destruct s as [|c s']; [discriminate|].
    destruct (Ascii.eqb c quote); [trivial|].
    destruct (Ascii.eqb c "{").
    { destruct (skip_ws s') as [|c' r']; [discriminate|].
      destruct (Ascii.eqb c' "}"); [trivial | apply IH3]. }
    destruct (Ascii.eqb c "[").
    { destruct (skip_ws s') as [|c' r']; [discriminate|].
      destruct (Ascii.eqb c' "]"); [trivial | apply IH2]. }
    destruct (literal false (String c s')) as [x|] eqn:E.
    { now rewrite (literal_strict _ _ E). }
    intros H. now rewrite (number_is_no_constant _ _ _ E H).
  - intros s seen v r. rewrite !elements_S.
    destruct (scan_once false fuel s) as [v' r'| |] eqn:E; try discriminate.
    rewrite (IH1 _ _ _ E).
    destruct (skip_ws r') as [|c r'']; [discriminate|].
    destruct (Ascii.eqb c "]"); [trivial|].
    destruct (Ascii.eqb c ","); [apply IH2 | discriminate].
  - intros s seen v r. rewrite !members_S. destruct s as [|c s']; [discriminate|].
    destruct (Ascii.eqb c quote); [|discriminate].
    destruct (scanstring s' EmptyString) as [[key r1]|]; [|discriminate].
    destruct (skip_ws r1) as [|colon r2]; [discriminate|].
    destruct (Ascii.eqb colon ":"); [|discriminate].
    destruct (scan_once false fuel (skip_ws r2)) as [v' r3| |] eqn:E3;
      try discriminate.
    rewrite (IH1 _ _ _ E3).
    destruct (skip_ws r3) as [|c' r4]; [discriminate|].
    destruct (Ascii.eqb c' "}"); [trivial|].
    destruct (Ascii.eqb c' ","); [apply IH3 | discriminate].
Qed.

Lemma loads_strict (s : string) (v : value) :
  loads false s = Some v -> loads true s = Some v.
Proof.
  unfold loads.
  destruct (scan_once false (2 * String.length s + 1) (skip_ws s))
    as [v' rest| |] eqn:E; try discriminate.
  now rewrite (proj1 (scan_strict _) _ _ _ E).
Qed.

(** A text that the decoder refuses even with the three constants is not
    valid JSON. *)
Lemma refused_is_invalid (text : string) : load text = None -> valid text = false.
Proof.
  unfold load, valid. intros H.
  destruct (loads false text) as [v|] eqn:E; [|reflexivity].
  apply loads_strict in E. congruence.
Qed.

End JsonFacts.

(** C4 (as amended). When [json.load] does not decode the text on the
    standard input, which is then not valid JSON, or decodes it to a
    value that is not an object, the run fails before it prints
    anything: with the decoder's error in the first case, with
    [TypeError] from the first subscript in the second; the standard
    output is left as it was.  The decoder as called accepts the
    constants [NaN], [Infinity] and [-Infinity], so a text that is not
    valid JSON on their account alone is decoded and reported. *)
Theorem undecodable_input_aborts
    (float_repr : spec_float -> string) (str_repr : string -> string)
    (stdin : string) (out : stdout) :
  (forall v, Json.load stdin = Some v -> is_object v = false) ->
  main float_repr str_repr Json.load stdin out
  = (Raise (match Json.load stdin with
            | Some _ => TypeError
            | None => JSONDecodeError
            end), out) /\
  (Json.load stdin = None -> Json.valid stdin = false).
Proof.
  intros H. split.
  - now apply malformed_input_aborts.
  - apply JsonFacts.refused_is_invalid.
Qed.

(** ** The properties at the sample documents *)

Import Sample.

Lemma services_in_ascending_name_order_witness :
  exists entries,
    main_body float_repr str_repr (VDict acme) []
    = (Ok tt, ([] ++ header_lines float_repr str_repr
                        (VStr "acme") (VStr "abc123") (VStr "acme.dev")
                  ++ "Services:" :: flat_map (block_lines float_repr str_repr) entries)%list) /\
    Permutation two_services entries /\
    StronglySorted name_lt entries /\
    forall d' svcs',
      lookup "project_name" d' = Some (VStr "acme") ->
      lookup "hash" d' = Some (VStr "abc123") ->
      lookup "base_domain" d' = Some (VStr "acme.dev") ->
      lookup "services" d' = Some (VDict svcs') ->
      Permutation two_services svcs' ->
      main_body float_repr str_repr (VDict d') [] = main_body float_repr str_repr (VDict acme) [].
Proof.
  apply (services_in_ascending_name_order float_repr str_repr acme
           (VStr "acme") (VStr "abc123") (VStr "acme.dev") two_services []);
    reflexivity.
Defined.

Lemma no_services_report_witness :
  main_body float_repr str_repr (VDict acme_empty) []
  = (Ok tt, [ "Project: acme"; "Hash: abc123"; "Domain: acme.dev"; "";
              "No services configured." ]) /\
  main_body float_repr str_repr (VDict identity) []
  = (Ok tt, [ "Project: acme"; "Hash: abc123"; "Domain: acme.dev"; "";
              "No services configured." ]).
Proof.
  split.
  - apply (no_services_report float_repr str_repr acme_empty
             (VStr "acme") (VStr "abc123") (VStr "acme.dev") []);
      try reflexivity. right. reflexivity.
  - apply (no_services_report float_repr str_repr identity
             (VStr "acme") (VStr "abc123") (VStr "acme.dev") []);
      try reflexivity. left. reflexivity.
Defined.

Lemma missing_required_key_raises_witness :
  main_body float_repr str_repr
    (VDict [("project_name", VStr "acme"); ("base_domain", VStr "acme.dev")]) []
  = (Raise (KeyError "hash"), ["Project: acme"]).
Proof.
  apply (missing_required_key_raises float_repr str_repr
           [("project_name", VStr "acme"); ("base_domain", VStr "acme.dev")]
           "hash" []).
  - simpl. auto.
  - reflexivity.
Defined.

Lemma undecodable_input_aborts_witness :
  (main float_repr str_repr Json.load "not valid json" [] = (Raise JSONDecodeError, [])
   /\ Json.valid "not valid json" = false) /\
  main float_repr str_repr Json.load "[1, 2]" [] = (Raise TypeError, []).
Proof.
  split.
  - destruct (undecodable_input_aborts float_repr str_repr "not valid json" [])
      as [Hrun Hvalid].
    + intros v H. vm_compute in H. discriminate H.
    + split; [exact Hrun | apply Hvalid; reflexivity].
  - apply (undecodable_input_aborts float_repr str_repr "[1, 2]" []).
    intros v H. vm_compute in H. injection H as <-. reflexivity.
Defined.

(** A text that is not valid JSON, its [NaN] being no JSON value, on
    which the run prints its report and ends normally. *)
Lemma invalid_json_reported :
  Json.valid nan_document = false /\
  main float_repr str_repr Json.load nan_document []
  = (Ok tt, [ "Project: acme"; "Hash: abc123"; "Domain: acme.dev"; "";
              "No services configured." ]).
Proof. split; vm_compute; reflexivity. Qed.

Lemma incomplete_entry_aborts_witness :
  (exists e out', main_body float_repr str_repr (VDict acme_broken) [] = (Raise e, out')) /\
  exists good name o k rest,
    sorted broken_services = (good ++ (name, VDict o) :: rest)%list /\
    forallb complete good = true /\
    In k ["dns_name"; "internal_port"; "url"] /\
    lookup k o = None /\
    main_body float_repr str_repr (VDict acme_broken) []
    = (Raise (KeyError k),
       ([] ++ header_lines float_repr str_repr (VStr "acme") (VStr "abc123") (VStr "acme.dev")
           ++ "Services:" :: flat_map (block_lines float_repr str_repr) good
           ++ partial_lines float_repr str_repr name o)%list).
Proof.
  destruct (incomplete_entry_aborts float_repr str_repr acme_broken broken_services []
              eq_refl eq_refl) as [H1 H2].
  split; [exact H1|].
  apply (H2 (VStr "acme") (VStr "abc123") (VStr "acme.dev")); reflexivity.
Defined.

Lemma block_values_verbatim_witness :
  (exists before after,
     main_body float_repr str_repr (VDict acme) []
     = (Ok tt, [] +++ before +++
                 [ "  web:"; "    DNS:  web.svc"; "    Port: 8080";
                   "    URL:  http://web.acme.dev"; "" ] +++ after)) /\
  option_map Z.of_int (NilZero.int_of_string "8080") = Some 8080%Z.
Proof.
  apply (block_values_verbatim float_repr str_repr acme
           (VStr "acme") (VStr "abc123") (VStr "acme.dev") two_services
           "web" [("dns_name", VStr "web.svc"); ("internal_port", VInt 8080);
                  ("url", VStr "http://web.acme.dev")]
           "web.svc" 8080%Z "http://web.acme.dev" []);
    try reflexivity.
  left. reflexivity.
Defined.

Lemma main_deterministic_witness :
  (exists r emitted, forall out,
     main float_repr str_repr json_load "{}" out = (r, out +++ emitted) /\
     render (snd (main float_repr str_repr json_load "{}" out)) = render out ++ render emitted) /\
  main_body float_repr str_repr (VDict (rev identity)) []
  = main_body float_repr str_repr (VDict identity) [] /\
  main_body float_repr str_repr (VDict (("services", VDict [("api", api); ("web", web)])
                            :: identity)) []
  = main_body float_repr str_repr (VDict (("services", VDict two_services) :: identity)) [].
Proof.
  destruct (main_deterministic float_repr str_repr json_load "{}") as [H1 [H2 H3]].
  split; [exact H1|]. split.
  - apply H2; [reflexivity | apply Permutation_rev].
  - apply H3; [reflexivity | apply perm_swap].
Defined.

Lemma falsy_services_report_witness :
  main_body float_repr str_repr (VDict (("services", VNull) :: identity)) []
  = (Ok tt, [ "Project: acme"; "Hash: abc123"; "Domain: acme.dev"; "";
              "No services configured." ]) /\
  main_body float_repr str_repr (VDict (("services", VList []) :: identity)) []
  = (Ok tt, [ "Project: acme"; "Hash: abc123"; "Domain: acme.dev"; "";
              "No services configured." ]).
Proof.
  split.
  - apply (falsy_services_report float_repr str_repr (("services", VNull) :: identity)
             (VStr "acme") (VStr "abc123") (VStr "acme.dev") VNull []);
      try reflexivity. simpl. auto.
  - apply (falsy_services_report float_repr str_repr (("services", VList []) :: identity)
             (VStr "acme") (VStr "abc123") (VStr "acme.dev") (VList []) []);
      try reflexivity. simpl. auto 6.
Defined.

Lemma extra_keys_ignored_witness :
  main_body float_repr str_repr (VDict (("owner", VStr "ops") :: acme)) []
  = main_body float_repr str_repr (VDict acme) [].
Proof.
  apply (extra_keys_ignored float_repr str_repr (("owner", VStr "ops") :: acme) acme []);
    reflexivity.
Defined.

Lemma sub_fields_not_type_checked_witness :
  (exists before after,
     main_body float_repr str_repr (VDict acme_untyped) []
     = (Ok tt, [] +++ before +++
                 [ "  web:"; "    DNS:  None"; "    Port: 8080";
                   "    URL:  ['a', True]"; "" ] +++ after)) /\
  (exists before after,
     main_body float_repr str_repr (VDict acme_untyped) []
     = (Ok tt, [] +++ before +++
                 [ "  api:"; "    DNS:  api.svc"; "    Port: 1.5";
                   "    URL:  http://api.acme.dev"; "" ] +++ after)).
Proof.
  split.
  - apply (sub_fields_not_type_checked float_repr str_repr acme_untyped
             (VStr "acme") (VStr "abc123") (VStr "acme.dev") untyped_services
             "web" web_untyped
             VNull (VStr "8080") (VList [VStr "a"; VBool true]) []);
      try reflexivity.
    left. reflexivity.
  - apply (sub_fields_not_type_checked float_repr str_repr acme_untyped
             (VStr "acme") (VStr "abc123") (VStr "acme.dev") untyped_services
             "api" api_float_port
             (VStr "api.svc") (VFloat one_and_a_half) (VStr "http://api.acme.dev") []);
      try reflexivity.
    right. left. reflexivity.
Defined.

(** ** Sample runs *)

Example acme_report :
  main_body float_repr str_repr (VDict acme) []
  = (Ok tt,
     [ "Project: acme"; "Hash: abc123"; "Domain: acme.dev"; "";
       "Services:";
       "  api:"; "    DNS:  api.svc"; "    Port: 9090";
       "    URL:  http://api.acme.dev"; "";
       "  web:"; "    DNS:  web.svc"; "    Port: 8080";
       "    URL:  http://web.acme.dev"; "" ]).
Proof. reflexivity. Qed.

Example acme_broken_report :
  main_body float_repr str_repr (VDict acme_broken) []
  = (Raise (KeyError "internal_port"),
     [ "Project: acme"; "Hash: abc123"; "Domain: acme.dev"; "";
       "Services:";
       "  api:"; "    DNS:  api.svc"; "    Port: 9090";
       "    URL:  http://api.acme.dev"; "";
       "  db:"; "    DNS:  db.svc" ]).
Proof. reflexivity. Qed.

Example truthy_non_mapping_services :
  main_body float_repr str_repr (VDict (("services", VInt 5) :: identity)) []
  = (Raise AttributeError,
     [ "Project: acme"; "Hash: abc123"; "Domain: acme.dev"; ""; "Services:" ]).
Proof. reflexivity. Qed.

Example empty_object_on_stdin :
  main float_repr str_repr json_load "{}" []
  = (Raise (KeyError "project_name"), []).
Proof. reflexivity. Qed.

(** ** The further properties at the sample documents *)

Lemma truthy_non_mapping_services_raise_witness :
  main_body float_repr str_repr (VDict (("services", VStr "none") :: identity)) []
  = (Raise AttributeError,
     [ "Project: acme"; "Hash: abc123"; "Domain: acme.dev"; ""; "Services:" ]).
Proof.
  apply (truthy_non_mapping_services_raise float_repr str_repr
           (("services", VStr "none") :: identity)
           (VStr "acme") (VStr "abc123") (VStr "acme.dev") (VStr "none") []);
    reflexivity.
Defined.

Lemma non_object_entry_raises_witness :
  main_body float_repr str_repr (VDict acme_flattened) []
  = (Raise TypeError,
     [ "Project: acme"; "Hash: abc123"; "Domain: acme.dev"; "";
       "Services:";
       "  api:"; "    DNS:  api.svc"; "    Port: 9090";
       "    URL:  http://api.acme.dev"; "";
       "  web:" ]).
Proof.
  apply (non_object_entry_raises float_repr str_repr acme_flattened
           (VStr "acme") (VStr "abc123") (VStr "acme.dev") flattened_services
           [("api", api)] "web" (VInt 0) [] []);
    reflexivity.
Defined.

Lemma key_error_names_a_schema_field_witness :
  In "project_name" subscripted_keys.
Proof.
  apply (key_error_names_a_schema_field float_repr str_repr json_load
           "{}" [] "project_name" []).
  reflexivity.
Defined.

Lemma header_always_first_witness :
  exists r rest,
    main_body float_repr str_repr (VDict acme_broken) []
    = (r, [] +++ [ "Project: acme"; "Hash: abc123"; "Domain: acme.dev"; "" ] +++ rest).
Proof.
  apply (header_always_first float_repr str_repr acme_broken
           (VStr "acme") (VStr "abc123") (VStr "acme.dev") []);
    reflexivity.
Defined.

Lemma report_text_line_count_witness :
  exists emitted,
    main_body float_repr str_repr (VDict acme) [] = (Ok tt, [] +++ emitted) /\
    List.length (split_lines (render emitted)) = 15.
Proof.
  apply (report_text_line_count float_repr str_repr acme
           (VStr "acme") (VStr "abc123") (VStr "acme.dev") two_services []);
    reflexivity.
Defined.

Lemma block_text_position_witness :
  exists emitted,
    main_body float_repr str_repr (VDict acme) [] = (Ok tt, [] +++ emitted) /\
    firstn 5 (skipn 10 (split_lines (render emitted)))
    = [ "  web:"; "    DNS:  web.svc"; "    Port: 8080";
        "    URL:  http://web.acme.dev"; "" ].
Proof.
  apply (block_text_position float_repr str_repr acme
           (VStr "acme") (VStr "abc123") (VStr "acme.dev") two_services
           1 "web" web (VStr "web.svc") (VInt 8080) (VStr "http://web.acme.dev") []);
    reflexivity.
Defined.

Lemma entry_extras_ignored_witness :
  main_body float_repr str_repr (VDict acme) []
  = main_body float_repr str_repr (VDict acme_verbose) [].
Proof.
  apply (entry_extras_ignored float_repr str_repr acme acme_verbose
           (VStr "acme") (VStr "abc123") (VStr "acme.dev")
           two_services verbose_services []);
    try reflexivity.
  repeat constructor.
Defined.
